(** * EmailBuilder renderer: design tokens, block compilers, document
      assembly and the POST /render handler

    A shallow embedding of the MJML renderer service
    (renderer/src/templates/generator.js, renderer/src/components/*.js and
    the Express handler of renderer/src/index.js), followed by the
    properties the specification states about it.

    JavaScript values are modelled by their static shape: a string is a
    [string], a property that may be missing is an [option] ([None] is
    [undefined]), an array is a [list].  Template literals are transcribed
    character for character; the only character that cannot be written
    inside a literal here is the double quote, which is the constant [dq]. *)

From Stdlib Require Import String Ascii List Bool Arith Lia.
From Stdlib Require Import NArith ZArith DecimalString.
Import ListNotations.
Open Scope string_scope.

(* ================================================================== *)
(** * Part I. Definitions *)
(* ================================================================== *)

(** ** JavaScript strings *)

Module Str.

(** The double quote character of the templates' attribute values. *)
Definition dq : string := String "034"%char "".

(** White space removed by [String.prototype.trim], restricted to the
    ASCII range: tab, line feed, vertical tab, form feed, carriage
    return and space.  Every template of the renderer starts and ends
    with literal ASCII text, so no other white space is ever met. *)
Definition is_ws (c : ascii) : bool :=
  existsb (Ascii.eqb c)
    ["009"%char; "010"%char; "011"%char; "012"%char; "013"%char; " "%char].

Fixpoint trimStart (s : string) : string :=
  match s with
  | "" => ""
  | String c s' => if is_ws c then trimStart s' else s
  end.

Fixpoint trimEnd (s : string) : string :=
  match s with
  | "" => ""
  | String c s' =>
      match trimEnd s' with
      | "" => if is_ws c then "" else String c ""
      | r => String c r
      end
  end.

(** [s.trim()] *)
Definition trim (s : string) : string := trimEnd (trimStart s).

(** [true] when every character of [s] is white space. *)
Fixpoint blank (s : string) : bool :=
  match s with
  | "" => true
  | String c s' => is_ws c && blank s'
  end.

(** [s.startsWith(p)] *)
Fixpoint startsWith (s p : string) {struct p} : bool :=
  match p, s with
  | "", _ => true
  | String _ _, "" => false
  | String b p', String a s' => Ascii.eqb a b && startsWith s' p'
  end.

(** [s.includes(p)] *)
Fixpoint includes (s p : string) : bool :=
  startsWith s p ||
  match s with
  | "" => false
  | String _ s' => includes s' p
  end.

(** The number of positions of [s] at which [p] occurs. *)
Fixpoint occurrences (p s : string) : nat :=
  match s with
  | "" => 0
  | String _ s' => (if startsWith s p then 1 else 0) + occurrences p s'
  end.

(** [s] reads [a ++ p ++ b]: the text [p] occurs in [s] unchanged. *)
Definition Includes (s p : string) : Prop :=
  exists a b, s = a ++ p ++ b.

(** [p] occurs in [s], and [q] occurs after the end of that occurrence. *)
Definition Before (s p q : string) : Prop :=
  exists a b c, s = a ++ p ++ b ++ q ++ c.

(** The character [c] does not occur in [s]. *)
Fixpoint avoids (c : ascii) (s : string) : bool :=
  match s with
  | "" => true
  | String a s' => negb (Ascii.eqb a c) && avoids c s'
  end.

(** [s] holds no opening angle bracket, so no markup tag starts in it. *)
Definition plain (s : string) : bool := avoids "<"%char s.

(** Some non-empty suffix of [s] is a proper prefix of [p]: an
    occurrence of [p] could start inside [s] and end after it. *)
Fixpoint overhang (p s : string) : bool :=
  match s with
  | "" => false
  | String _ s' =>
      (startsWith p s && Nat.ltb (String.length s) (String.length p)) || overhang p s'
  end.

(** [p] occurs [n] times in [s], and no occurrence of [p] can start
    inside [s] and end after it: what is needed to count occurrences
    piece by piece in a concatenation. *)
Definition Tame (p s : string) (n : nat) : Prop :=
  overhang p s = false /\ occurrences p s = n.

(** [parts.join(sep)] on an array of strings. *)
Definition join (sep : string) (parts : list string) : string :=
  String.concat sep parts.

(** [c] repeated [n] times. *)
Fixpoint replicate (n : nat) (c : ascii) : string :=
  match n with
  | 0 => ""
  | S n' => String c (replicate n' c)
  end.

End Str.

Import Str.

(** ** Possibly missing properties *)

(** A property that holds a string when present. *)
Definition prop := option string.

(** String conversion inside a template literal: a missing property
    prints as the text [undefined]. *)
Definition str (v : prop) : string :=
  match v with
  | Some s => s
  | None => "undefined"
  end.

(** Truthiness of a possibly missing string: [undefined] and the empty
    string are falsy, every other string is truthy. *)
Definition truthy (v : prop) : bool :=
  match v with
  | Some s => negb (s =? "")
  | None => false
  end.

(** ** Design tokens *)

Record Colors := {
  primary : string;
  onPrimary : string;
  secondary : string;
  background : string;
  surface : string;
  text : string;
  textSecondary : string
}.

Record Font := {
  family : string;
  size : string;
  weight : string;
  lineHeight : string
}.

Record Fonts := {
  heading : Font;
  body : Font
}.

Record Spacing := {
  xs : string;
  sm : string;
  md : string;
  lg : string;
  xl : string;
  xxl : string
}.

Record Radius := {
  button : string;
  card : string
}.

Record DesignTokens := {
  colors : Colors;
  fonts : Fonts;
  spacing : Spacing;
  radius : Radius
}.

(** An override object: any subset of the four top-level groups. *)
Record Override := {
  o_colors : option Colors;
  o_fonts : option Fonts;
  o_spacing : option Spacing;
  o_radius : option Radius
}.

(** The object literal [{}]. *)
Definition emptyOverride : Override :=
  {| o_colors := None; o_fonts := None; o_spacing := None; o_radius := None |}.

(** [{ ...c, primary: p }] *)
Definition withPrimary (c : Colors) (p : string) : Colors :=
  {| primary := p;
     onPrimary := c.(onPrimary);
     secondary := c.(secondary);
     background := c.(background);
     surface := c.(surface);
     text := c.(text);
     textSecondary := c.(textSecondary) |}.

(** [{ ...base, ...o }]: the spread is shallow, a group of [o] replaces
    the group of [base] as a whole. *)
Definition spread (base : DesignTokens) (o : Override) : DesignTokens :=
  {| colors := match o.(o_colors) with Some c => c | None => base.(colors) end;
     fonts := match o.(o_fonts) with Some f => f | None => base.(fonts) end;
     spacing := match o.(o_spacing) with Some s => s | None => base.(spacing) end;
     radius := match o.(o_radius) with Some r => r | None => base.(radius) end |}.

Definition defaultTokens : DesignTokens :=
  {| colors :=
       {| primary := "#2563eb";
          onPrimary := "#ffffff";
          secondary := "#64748b";
          background := "#f8fafc";
          surface := "#ffffff";
          text := "#1e293b";
          textSecondary := "#64748b" |};
     fonts :=
       {| heading :=
            {| family := "Arial, sans-serif";
               size := "24px";
               weight := "700";
               lineHeight := "1.2" |};
          body :=
            {| family := "Arial, sans-serif";
               size := "16px";
               weight := "400";
               lineHeight := "1.5" |} |};
     spacing :=
       {| xs := "4px"; sm := "8px"; md := "16px";
          lg := "24px"; xl := "32px"; xxl := "48px" |};
     radius := {| button := "6px"; card := "8px" |} |}.

(** The own properties of [templateOverrides], in source order. *)
Definition templateOverrides : list (string * Override) :=
  [ ("cart_abandon",
     {| o_colors := Some (withPrimary defaultTokens.(colors) "#dc2626");
        o_fonts := None; o_spacing := None; o_radius := None |});
    ("post_purchase",
     {| o_colors := Some (withPrimary defaultTokens.(colors) "#059669");
        o_fonts := None; o_spacing := None; o_radius := None |});
    ("order_confirmation",
     {| o_colors := Some (withPrimary defaultTokens.(colors) "#2563eb");
        o_fonts := None; o_spacing := None; o_radius := None |}) ].

(** Names every object literal inherits from [Object.prototype].  Looking
    one of them up in [templateOverrides] yields a function (or the
    prototype object for [__proto__]): a truthy value, so [|| {}] does not
    apply, but one with no own enumerable property, so spreading it adds
    nothing. *)
Definition inheritedNames : list string :=
  [ "constructor"; "hasOwnProperty"; "isPrototypeOf"; "propertyIsEnumerable";
    "toLocaleString"; "toString"; "valueOf"; "__proto__";
    "__defineGetter__"; "__defineSetter__";
    "__lookupGetter__"; "__lookupSetter__" ].

(** The result of [templateOverrides[key]]. *)
Inductive Lookup :=
| Own (o : Override)
| Inherited
| Undefined.

Fixpoint assoc (key : string) (l : list (string * Override)) : option Override :=
  match l with
  | [] => None
  | (k, o) :: l' => if key =? k then Some o else assoc key l'
  end.

Definition lookupOverride (key : string) : Lookup :=
  match assoc key templateOverrides with
  | Some o => Own o
  | None => if existsb (String.eqb key) inheritedNames then Inherited else Undefined
  end.

(** The properties [...(v || {})] copies. *)
Definition spreadable (v : Lookup) : Override :=
  match v with
  | Own o => o
  | Inherited => emptyOverride
  | Undefined => emptyOverride
  end.

Definition loadDesignTokens (templateType : string) : DesignTokens :=
  spread defaultTokens (spreadable (lookupOverride templateType)).

(** The closed enumeration of template categories. *)
Definition knownCategories : list string :=
  [ "cart_abandon"; "post_purchase"; "order_confirmation" ].

(** Every leaf of a token set with its path. *)
Definition leaves (t : DesignTokens) : list (string * string) :=
  [ ("colors.primary", t.(colors).(primary));
    ("colors.onPrimary", t.(colors).(onPrimary));
    ("colors.secondary", t.(colors).(secondary));
    ("colors.background", t.(colors).(background));
    ("colors.surface", t.(colors).(surface));
    ("colors.text", t.(colors).(text));
    ("colors.textSecondary", t.(colors).(textSecondary));
    ("fonts.heading.family", t.(fonts).(heading).(family));
    ("fonts.heading.size", t.(fonts).(heading).(size));
    ("fonts.heading.weight", t.(fonts).(heading).(weight));
    ("fonts.heading.lineHeight", t.(fonts).(heading).(lineHeight));
    ("fonts.body.family", t.(fonts).(body).(family));
    ("fonts.body.size", t.(fonts).(body).(size));
    ("fonts.body.weight", t.(fonts).(body).(weight));
    ("fonts.body.lineHeight", t.(fonts).(body).(lineHeight));
    ("spacing.xs", t.(spacing).(xs));
    ("spacing.sm", t.(spacing).(sm));
    ("spacing.md", t.(spacing).(md));
    ("spacing.lg", t.(spacing).(lg));
    ("spacing.xl", t.(spacing).(xl));
    ("spacing.xxl", t.(spacing).(xxl));
    ("radius.button", t.(radius).(button));
    ("radius.card", t.(radius).(card)) ].

(** The value of the leaf at [path], if [path] names a leaf. *)
Fixpoint leafAt (path : string) (l : list (string * string)) : option string :=
  match l with
  | [] => None
  | (p, v) :: l' => if path =? p then Some v else leafAt path l'
  end.

(** No token value holds an opening angle bracket. *)
Definition plainTokens (t : DesignTokens) : bool :=
  forallb (fun pv => plain (snd pv)) (leaves t).

(** ** Content blocks *)

Module Item.
(** A product reference of an items or recommendations block. *)
Record t := {
  sku : prop;
  name : prop;
  price : prop;
  imageUrl : prop;
  url : prop
}.
End Item.

(** A block object as the renderer reads it: the [type] tag and the
    properties the four components destructure, each possibly missing.
    [customHtml] is the extra property the orchestrator sets on a hero
    block built from an uploaded HTML file. *)
Record Block := {
  type : prop;
  headline : prop;
  subcopy : prop;
  imageUrl : prop;
  customHtml : prop;
  title : prop;
  items : option (list Item.t);
  legal : prop;
  preferencesUrl : prop;
  unsubscribeUrl : prop
}.

(** ** components/hero.js *)

(** The image element of the hero section, the inner template of the
    [imageUrl ? ... : ''] conditional. *)
Definition heroImage (block : Block) (tokens : DesignTokens) : string :=
  let headline := block.(headline) in
  let imageUrl := block.(imageUrl) in
  "
        <mj-image
          src=" ++ dq ++ str imageUrl ++ dq ++ "
          alt=" ++ dq ++ str headline ++ dq ++ "
          align=" ++ dq ++ "center" ++ dq ++ "
          border-radius=" ++ dq ++ tokens.(radius).(card) ++ dq ++ "
          padding-bottom=" ++ dq ++ tokens.(spacing).(lg) ++ dq ++ "
        />
        ".

(** The subcopy text element, the inner template of the
    [subcopy ? ... : ''] conditional. *)
Definition heroSubcopy (block : Block) (tokens : DesignTokens) : string :=
  let subcopy := block.(subcopy) in
  "
        <mj-text
          align=" ++ dq ++ "center" ++ dq ++ "
          font-size=" ++ dq ++ tokens.(fonts).(body).(size) ++ dq ++ "
          color=" ++ dq ++ tokens.(colors).(textSecondary) ++ dq ++ "
          padding-bottom=" ++ dq ++ tokens.(spacing).(lg) ++ dq ++ "
        >
          " ++ str subcopy ++ "
        </mj-text>
        ".

(** The section of a hero block around its two optional elements: the
    outer template with what the two conditionals evaluate to. *)
Definition heroSection (tokens : DesignTokens) (headline : prop)
    (imageElement subcopyElement : string) : string :=
  trim ("
    <mj-section background-color=" ++ dq ++ tokens.(colors).(surface) ++ dq ++ " css-class=" ++ dq ++ "section-spacing" ++ dq ++ ">
      <mj-column>
        " ++ imageElement ++ "

        <mj-text
          align=" ++ dq ++ "center" ++ dq ++ "
          font-size=" ++ dq ++ tokens.(fonts).(heading).(size) ++ dq ++ "
          font-weight=" ++ dq ++ tokens.(fonts).(heading).(weight) ++ dq ++ "
          line-height=" ++ dq ++ tokens.(fonts).(heading).(lineHeight) ++ dq ++ "
          color=" ++ dq ++ tokens.(colors).(text) ++ dq ++ "
          padding-bottom=" ++ dq ++ tokens.(spacing).(md) ++ dq ++ "
        >
          " ++ str headline ++ "
        </mj-text>

        " ++ subcopyElement ++ "
      </mj-column>
    </mj-section>
  ").

Definition heroComponent (block : Block) (tokens : DesignTokens) : string :=
  let headline := block.(headline) in
  let subcopy := block.(subcopy) in
  let imageUrl := block.(imageUrl) in
  heroSection tokens headline
    (if truthy imageUrl then heroImage block tokens else "")
    (if truthy subcopy then heroSubcopy block tokens else "").

(** ** components/items.js *)

(** The column of one item, the callback of [items.map]. *)
Definition itemsColumn (tokens : DesignTokens) (item : Item.t) : string :=
  "
    <mj-column width=" ++ dq ++ "33.33%" ++ dq ++ " padding=" ++ dq ++ tokens.(spacing).(sm) ++ dq ++ ">
      <mj-image
        src=" ++ dq ++ str item.(Item.imageUrl) ++ dq ++ "
        alt=" ++ dq ++ str item.(Item.name) ++ dq ++ "
        align=" ++ dq ++ "center" ++ dq ++ "
        border-radius=" ++ dq ++ tokens.(radius).(card) ++ dq ++ "
        padding-bottom=" ++ dq ++ tokens.(spacing).(sm) ++ dq ++ "
        href=" ++ dq ++ str item.(Item.url) ++ dq ++ "
      />

      <mj-text
        align=" ++ dq ++ "center" ++ dq ++ "
        font-size=" ++ dq ++ "14px" ++ dq ++ "
        font-weight=" ++ dq ++ "600" ++ dq ++ "
        color=" ++ dq ++ tokens.(colors).(text) ++ dq ++ "
        padding-bottom=" ++ dq ++ tokens.(spacing).(xs) ++ dq ++ "
      >
        " ++ str item.(Item.name) ++ "
      </mj-text>

      <mj-text
        align=" ++ dq ++ "center" ++ dq ++ "
        font-size=" ++ dq ++ tokens.(fonts).(body).(size) ++ dq ++ "
        color=" ++ dq ++ tokens.(colors).(primary) ++ dq ++ "
        font-weight=" ++ dq ++ "700" ++ dq ++ "
        padding-bottom=" ++ dq ++ tokens.(spacing).(sm) ++ dq ++ "
      >
        " ++ str item.(Item.price) ++ "
      </mj-text>

      <mj-button
        href=" ++ dq ++ str item.(Item.url) ++ dq ++ "
        background-color=" ++ dq ++ tokens.(colors).(primary) ++ dq ++ "
        color=" ++ dq ++ tokens.(colors).(onPrimary) ++ dq ++ "
        font-size=" ++ dq ++ "14px" ++ dq ++ "
        padding=" ++ dq ++ tokens.(spacing).(xs) ++ " " ++ tokens.(spacing).(md) ++ dq ++ "
        border-radius=" ++ dq ++ tokens.(radius).(button) ++ dq ++ "
      >
        Visualizza
      </mj-button>
    </mj-column>
  ".

(** The two sections of an items block around the joined columns. *)
Definition itemsSections (tokens : DesignTokens) (title : prop) (itemsMarkup : string) : string :=
  trim ("
    <mj-section background-color=" ++ dq ++ tokens.(colors).(background) ++ dq ++ " css-class=" ++ dq ++ "section-spacing" ++ dq ++ ">
      <mj-column>
        <mj-text
          align=" ++ dq ++ "center" ++ dq ++ "
          font-size=" ++ dq ++ tokens.(fonts).(heading).(size) ++ dq ++ "
          font-weight=" ++ dq ++ tokens.(fonts).(heading).(weight) ++ dq ++ "
          color=" ++ dq ++ tokens.(colors).(text) ++ dq ++ "
          padding-bottom=" ++ dq ++ tokens.(spacing).(lg) ++ dq ++ "
        >
          " ++ str title ++ "
        </mj-text>
      </mj-column>
    </mj-section>

    <mj-section background-color=" ++ dq ++ tokens.(colors).(background) ++ dq ++ ">
      " ++ itemsMarkup ++ "
    </mj-section>
  ").

Definition itemsComponent (block : Block) (tokens : DesignTokens) : string :=
  let title := block.(title) in
  let items := block.(items) in
  match items with
  | None => ""
  | Some items =>
      if Nat.eqb (List.length items) 0 then ""
      else
        let itemsMarkup := join "" (map (itemsColumn tokens) items) in
        itemsSections tokens title itemsMarkup
  end.

(** ** components/recommendations.js *)

(** The column of one recommended item, the callback of
    [items.slice(0, 3).map]. *)
Definition recommendationsColumn (tokens : DesignTokens) (item : Item.t) : string :=
  "
    <mj-column width=" ++ dq ++ "33.33%" ++ dq ++ " padding=" ++ dq ++ tokens.(spacing).(sm) ++ dq ++ ">
      <mj-image
        src=" ++ dq ++ str item.(Item.imageUrl) ++ dq ++ "
        alt=" ++ dq ++ str item.(Item.name) ++ dq ++ "
        align=" ++ dq ++ "center" ++ dq ++ "
        border-radius=" ++ dq ++ tokens.(radius).(card) ++ dq ++ "
        padding-bottom=" ++ dq ++ tokens.(spacing).(sm) ++ dq ++ "
        href=" ++ dq ++ str item.(Item.url) ++ dq ++ "
      />

      <mj-text
        align=" ++ dq ++ "center" ++ dq ++ "
        font-size=" ++ dq ++ "14px" ++ dq ++ "
        font-weight=" ++ dq ++ "600" ++ dq ++ "
        color=" ++ dq ++ tokens.(colors).(text) ++ dq ++ "
        padding-bottom=" ++ dq ++ tokens.(spacing).(xs) ++ dq ++ "
      >
        " ++ str item.(Item.name) ++ "
      </mj-text>

      <mj-text
        align=" ++ dq ++ "center" ++ dq ++ "
        font-size=" ++ dq ++ tokens.(fonts).(body).(size) ++ dq ++ "
        color=" ++ dq ++ tokens.(colors).(primary) ++ dq ++ "
        font-weight=" ++ dq ++ "700" ++ dq ++ "
        padding-bottom=" ++ dq ++ tokens.(spacing).(sm) ++ dq ++ "
      >
        " ++ str item.(Item.price) ++ "
      </mj-text>

      <mj-button
        href=" ++ dq ++ str item.(Item.url) ++ dq ++ "
        background-color=" ++ dq ++ "transparent" ++ dq ++ "
        color=" ++ dq ++ tokens.(colors).(primary) ++ dq ++ "
        font-size=" ++ dq ++ "14px" ++ dq ++ "
        padding=" ++ dq ++ tokens.(spacing).(xs) ++ " " ++ tokens.(spacing).(md) ++ dq ++ "
        border=" ++ dq ++ tokens.(colors).(primary) ++ " 1px solid" ++ dq ++ "
        border-radius=" ++ dq ++ tokens.(radius).(button) ++ dq ++ "
      >
        Scopri
      </mj-button>
    </mj-column>
  ".

(** The two sections of a recommendations block around the joined
    columns. *)
Definition recommendationsSections (tokens : DesignTokens) (title : prop) (itemsMarkup : string) : string :=
  trim ("
    <mj-section background-color=" ++ dq ++ tokens.(colors).(surface) ++ dq ++ " css-class=" ++ dq ++ "section-spacing" ++ dq ++ ">
      <mj-column>
        <mj-text
          align=" ++ dq ++ "center" ++ dq ++ "
          font-size=" ++ dq ++ tokens.(fonts).(heading).(size) ++ dq ++ "
          font-weight=" ++ dq ++ tokens.(fonts).(heading).(weight) ++ dq ++ "
          color=" ++ dq ++ tokens.(colors).(text) ++ dq ++ "
          padding-bottom=" ++ dq ++ tokens.(spacing).(lg) ++ dq ++ "
        >
          " ++ str title ++ "
        </mj-text>
      </mj-column>
    </mj-section>

    <mj-section background-color=" ++ dq ++ tokens.(colors).(surface) ++ dq ++ ">
      " ++ itemsMarkup ++ "
    </mj-section>
  ").

Definition recommendationsComponent (block : Block) (tokens : DesignTokens) : string :=
  let title := block.(title) in
  let items := block.(items) in
  match items with
  | None => ""
  | Some items =>
      if Nat.eqb (List.length items) 0 then ""
      else
        let itemsMarkup := join "" (map (recommendationsColumn tokens) (firstn 3 items)) in
        recommendationsSections tokens title itemsMarkup
  end.

(** ** components/footer.js *)

Definition footerComponent (block : Block) (tokens : DesignTokens) : string :=
  let legal := block.(legal) in
  let preferencesUrl := block.(preferencesUrl) in
  let unsubscribeUrl := block.(unsubscribeUrl) in
  trim ("
    <mj-section background-color=" ++ dq ++ tokens.(colors).(secondary) ++ dq ++ " padding-top=" ++ dq ++ tokens.(spacing).(xxl) ++ dq ++ ">
      <mj-column>
        <mj-divider border-color=" ++ dq ++ tokens.(colors).(textSecondary) ++ dq ++ " border-width=" ++ dq ++ "1px" ++ dq ++ " padding-bottom=" ++ dq ++ tokens.(spacing).(lg) ++ dq ++ " />

        <mj-text
          align=" ++ dq ++ "center" ++ dq ++ "
          font-size=" ++ dq ++ "12px" ++ dq ++ "
          color=" ++ dq ++ tokens.(colors).(textSecondary) ++ dq ++ "
          padding-bottom=" ++ dq ++ tokens.(spacing).(md) ++ dq ++ "
        >
          " ++ str legal ++ "
        </mj-text>

        <mj-text
          align=" ++ dq ++ "center" ++ dq ++ "
          font-size=" ++ dq ++ "12px" ++ dq ++ "
          color=" ++ dq ++ tokens.(colors).(textSecondary) ++ dq ++ "
          padding-bottom=" ++ dq ++ tokens.(spacing).(lg) ++ dq ++ "
        >
          <a href=" ++ dq ++ str preferencesUrl ++ dq ++ " style=" ++ dq ++ "color: " ++ tokens.(colors).(textSecondary) ++ "; text-decoration: underline;" ++ dq ++ ">
            Gestisci preferenze
          </a>
          &nbsp;|&nbsp;
          <a href=" ++ dq ++ str unsubscribeUrl ++ dq ++ " style=" ++ dq ++ "color: " ++ tokens.(colors).(textSecondary) ++ "; text-decoration: underline;" ++ dq ++ ">
            Annulla iscrizione
          </a>
        </mj-text>
      </mj-column>
    </mj-section>
  ").

(** ** Effects: console output, exceptions and the MJML library *)

(** What a call can do besides returning: write to the console, or enter
    the external MJML compiler. *)
Inductive Effect :=
| ConsoleWarn (args : list string)
| ConsoleError (args : list string)
| MjmlCall (input : string).

Inductive Outcome (A : Type) :=
| Return (a : A)
| Throw (message : string).

Arguments Return {A} a.
Arguments Throw {A} message.

(** A computation yields a value or throws, and leaves a trace of its
    effects in the order they happened. *)
Definition Eff (A : Type) : Type := Outcome A * list Effect.

Definition ret {A : Type} (a : A) : Eff A := (Return a, []).

Definition bind {A B : Type} (m : Eff A) (k : A -> Eff B) : Eff B :=
  match m with
  | (Return a, l1) => let (o, l2) := k a in (o, (l1 ++ l2)%list)
  | (Throw e, l1) => (Throw e, l1)
  end.

Definition tell (e : Effect) : Eff unit := (Return tt, [e]).

(** [try { m } catch (error) { handler error.message }] *)
Definition tryCatch {A : Type} (m : Eff A) (handler : string -> Eff A) : Eff A :=
  match m with
  | (Return a, l1) => (Return a, l1)
  | (Throw e, l1) => let (o, l2) := handler e in (o, (l1 ++ l2)%list)
  end.

Declare Scope eff_scope.
Delimit Scope eff_scope with eff.
Notation "x <- m ;; k" := (bind m (fun x => k))
  (at level 61, m at next level, right associativity) : eff_scope.
Notation "m ;; k" := (bind m (fun _ => k))
  (at level 61, right associativity) : eff_scope.

(** [array.map(f)] for a callback with effects: the callback runs on the
    elements from the first to the last. *)
Fixpoint mapM {A B : Type} (f : A -> Eff B) (l : list A) : Eff (list B) :=
  match l with
  | [] => ret []
  | a :: l' => (b <- f a ;; bs <- mapM f l' ;; ret (b :: bs))%eff
  end.

(** ** templates/generator.js *)

(** The template object [generateMJML] destructures, which is also the
    body of a render request. *)
Record Template := {
  locale : prop;
  templateType : prop;
  subject : prop;
  preheader : prop;
  blocks : option (list Block)
}.

(** [block.type === tag] *)
Definition hasType (block : Block) (tag : string) : bool :=
  match block.(type) with
  | Some s => s =? tag
  | None => false
  end.

(** The callback of [blocks.map]: the [switch] on the block's type tag. *)
Definition compileBlock (tokens : DesignTokens) (block : Block) : Eff string :=
  if hasType block "hero" then ret (heroComponent block tokens)
  else if hasType block "items" then ret (itemsComponent block tokens)
  else if hasType block "recommendations" then ret (recommendationsComponent block tokens)
  else if hasType block "footer" then ret (footerComponent block tokens)
  else (tell (ConsoleWarn ["Unknown block type: " ++ str block.(type)]) ;; ret "")%eff.

(** The document envelope around the joined fragments. *)
Definition envelope (tokens : DesignTokens) (subject preheader : prop) (mjmlBlocks : string) : string :=
  trim ("
<mjml>
  <mj-head>
    <mj-title>" ++ str subject ++ "</mj-title>
    <mj-preview>" ++ str preheader ++ "</mj-preview>

    <mj-attributes>
      <mj-text color=" ++ dq ++ tokens.(colors).(text) ++ dq ++ " font-family=" ++ dq ++ tokens.(fonts).(body).(family) ++ dq ++ " font-size=" ++ dq ++ tokens.(fonts).(body).(size) ++ dq ++ " line-height=" ++ dq ++ tokens.(fonts).(body).(lineHeight) ++ dq ++ " />
      <mj-button background-color=" ++ dq ++ tokens.(colors).(primary) ++ dq ++ " color=" ++ dq ++ tokens.(colors).(onPrimary) ++ dq ++ " font-family=" ++ dq ++ tokens.(fonts).(body).(family) ++ dq ++ " border-radius=" ++ dq ++ tokens.(radius).(button) ++ dq ++ " />
    </mj-attributes>

    <mj-style>
      .content-padding { padding: " ++ tokens.(spacing).(md) ++ " " ++ tokens.(spacing).(lg) ++ "; }
      .section-spacing { padding-top: " ++ tokens.(spacing).(xl) ++ "; padding-bottom: " ++ tokens.(spacing).(xl) ++ "; }
    </mj-style>
  </mj-head>

  <mj-body background-color=" ++ dq ++ tokens.(colors).(background) ++ dq ++ ">
    " ++ mjmlBlocks ++ "
  </mj-body>
</mjml>").

Definition generateMJML (template : Template) : Eff string :=
  let templateType := template.(templateType) in
  let subject := template.(subject) in
  let preheader := template.(preheader) in
  let blocks := template.(blocks) in
  let tokens := loadDesignTokens (str templateType) in
  match blocks with
  | None => (Throw "Cannot read properties of undefined (reading 'map')", [])
  | Some blocks =>
      (fragments <- mapM (compileBlock tokens) blocks ;;
       let mjmlBlocks := join "
" fragments in
       ret (envelope tokens subject preheader mjmlBlocks))%eff
  end.

(** ** index.js: the POST /render handler *)

(** What the MJML library returns when it does not throw. *)
Record MjmlResult := {
  html : string;
  errors : option (list string)
}.

Inductive Body :=
| ErrorBody (error : string) (message : option string)
| RenderBody (mjml : string) (html : string) (warnings : list string).

Record Response := {
  status : nat;
  json : Body
}.

(** [errors || []] *)
Definition orEmpty (errors : option (list string)) : list string :=
  match errors with
  | Some l => l
  | None => []
  end.

Section Server.

(** The external MJML compiler, called with soft validation: it returns
    the final markup with the issues it tolerated, or throws. *)
Variable mjml : string -> Outcome MjmlResult.

Definition callMjml (mjmlContent : string) : Eff MjmlResult :=
  (mjml mjmlContent, [MjmlCall mjmlContent]).

Definition postRender (body : Template) : Eff Response :=
  tryCatch
    (let locale := body.(locale) in
     let templateType := body.(templateType) in
     let subject := body.(subject) in
     let preheader := body.(preheader) in
     let blocks := body.(blocks) in
     if negb (truthy templateType) || match blocks with None => true | Some _ => false end
     then
       ret {| status := 400;
              json := ErrorBody "Missing required fields: templateType, blocks" None |}
     else
       (mjmlContent <- generateMJML
          {| locale := locale;
             templateType := templateType;
             subject := subject;
             preheader := preheader;
             blocks := blocks |} ;;
        r <- callMjml mjmlContent ;;
        (match r.(errors) with
         | Some (e :: es) => tell (ConsoleWarn ("MJML compilation warnings:" :: e :: es))
         | _ => ret tt
         end) ;;
        ret {| status := 200;
               json := RenderBody mjmlContent r.(html) (orEmpty r.(errors)) |})%eff)
    (fun message =>
       (tell (ConsoleError ["Render error:"; message]) ;;
        ret {| status := 500;
               json := ErrorBody "Failed to render template" (Some message) |})%eff).

End Server.

(** ** Readings of the compiled output *)

(** The type tags the [switch] of [generateMJML] has a case for. *)
Definition knownTags : list string :=
  [ "hero"; "items"; "recommendations"; "footer" ].

(** The block falls to the [default] case of the [switch]. *)
Definition unknownType (block : Block) : bool :=
  negb (hasType block "hero" || hasType block "items"
        || hasType block "recommendations" || hasType block "footer").

(** The fragment [compileBlock] returns for a block. *)
Definition fragment (tokens : DesignTokens) (block : Block) : string :=
  match fst (compileBlock tokens block) with
  | Return s => s
  | Throw _ => ""
  end.

(** What [compileBlock] writes to the console for a block. *)
Definition blockLog (tokens : DesignTokens) (block : Block) : list Effect :=
  snd (compileBlock tokens block).

(** The token set [generateMJML] resolves for a template. *)
Definition tokensOf (template : Template) : DesignTokens :=
  loadDesignTokens (str template.(templateType)).

(** The intermediate markup of a template with a [blocks] array. *)
Definition markupOf (template : Template) (bs : list Block) : string :=
  envelope (tokensOf template) template.(subject) template.(preheader)
    (join "
" (map (fragment (tokensOf template)) bs)).

(** The texts a component prints for an item hold no opening angle
    bracket. *)
Definition plainItem (item : Item.t) : bool :=
  plain (str item.(Item.name)) && plain (str item.(Item.price))
  && plain (str item.(Item.imageUrl)) && plain (str item.(Item.url)).

(** The texts the hero component prints for a block hold no opening
    angle bracket. *)
Definition plainHero (block : Block) : bool :=
  plain (str block.(headline)) && plain (str block.(subcopy))
  && plain (str block.(imageUrl)).

(** The opening of a product column, of an image element and of a text
    element. *)
Definition columnTag : string := "<mj-column width=".
Definition imageTag : string := "<mj-image".
Definition textTag : string := "<mj-text".

(** The unknown-tag law read on the response of the handler: whenever a
    block of the request carries a tag outside [knownTags], the handler
    answers with a render result whose [warnings] hold exactly one entry
    naming that tag, and the block contributes the empty fragment. *)
Definition UnknownTagLawOnResponse (mjml : string -> Outcome MjmlResult) : Prop :=
  forall (body : Template) (bs : list Block) (b : Block) (tag : string),
    truthy body.(templateType) = true ->
    body.(blocks) = Some bs ->
    In b bs ->
    b.(type) = Some tag ->
    ~ In tag knownTags ->
    exists m h ws log,
      postRender mjml body
        = (Return {| status := 200; json := RenderBody m h ws |}, log)
      /\ List.length (filter (fun w => includes w tag) ws) = 1
      /\ fragment (tokensOf body) b = "".

(** ** Sample data *)

(** A block object with no property at all. *)
Definition emptyBlock : Block :=
  {| type := None; headline := None; subcopy := None; imageUrl := None;
     customHtml := None; title := None; items := None; legal := None;
     preferencesUrl := None; unsubscribeUrl := None |}.

(** [{ type: tag }] *)
Definition taggedBlock (tag : string) : Block :=
  {| type := Some tag; headline := None; subcopy := None; imageUrl := None;
     customHtml := None; title := None; items := None; legal := None;
     preferencesUrl := None; unsubscribeUrl := None |}.

Definition heroBlock (headline subcopy imageUrl customHtml : prop) : Block :=
  {| type := Some "hero"; headline := headline; subcopy := subcopy;
     imageUrl := imageUrl; customHtml := customHtml; title := None;
     items := None; legal := None; preferencesUrl := None;
     unsubscribeUrl := None |}.

Definition itemsBlock (tag : string) (title : prop) (items : option (list Item.t)) : Block :=
  {| type := Some tag; headline := None; subcopy := None; imageUrl := None;
     customHtml := None; title := title; items := items; legal := None;
     preferencesUrl := None; unsubscribeUrl := None |}.

Definition footerBlock (legal preferencesUrl unsubscribeUrl : prop) : Block :=
  {| type := Some "footer"; headline := None; subcopy := None;
     imageUrl := None; customHtml := None; title := None; items := None;
     legal := legal; preferencesUrl := preferencesUrl;
     unsubscribeUrl := unsubscribeUrl |}.

Definition product (sku name price : string) : Item.t :=
  {| Item.sku := Some sku; Item.name := Some name; Item.price := Some price;
     Item.imageUrl := Some ("https://cdn.example/" ++ sku ++ ".png");
     Item.url := Some ("https://shop.example/p/" ++ sku) |}.

Definition fiveProducts : list Item.t :=
  [ product "A1" "Lamp" "10,00"; product "B2" "Chair" "20,00";
    product "C3" "Desk" "30,00"; product "D4" "Shelf" "40,00";
    product "E5" "Rug" "50,00" ].

(** [{ templateType, subject, preheader, blocks }] *)
Definition document (templateType subject preheader : string) (bs : list Block) : Template :=
  {| locale := None; templateType := Some templateType;
     subject := Some subject; preheader := Some preheader;
     blocks := Some bs |}.

(** An MJML compiler that lowers every input and reports no issue. *)
Definition quietMjml (mjmlContent : string) : Outcome MjmlResult :=
  Return {| html := "<html>" ++ mjmlContent ++ "</html>"; errors := Some [] |}.

(** [{ ...block, customHtml: c }] *)
Definition withCustomHtml (block : Block) (c : prop) : Block :=
  {| type := block.(type); headline := block.(headline);
     subcopy := block.(subcopy); imageUrl := block.(imageUrl);
     customHtml := c; title := block.(title); items := block.(items);
     legal := block.(legal); preferencesUrl := block.(preferencesUrl);
     unsubscribeUrl := block.(unsubscribeUrl) |}.

(** A request whose only block is [{ type: tag }]. *)
Definition loneBlock (tag : string) : Template :=
  {| locale := None; templateType := Some "cart_abandon"; subject := None;
     preheader := None; blocks := Some [taggedBlock tag] |}.

(** A tag longer than every known tag and than every string of [ws]. *)
Definition longTag (ws : list string) : string :=
  replicate (16 + list_max (map String.length ws)) "x"%char.

(* ================================================================== *)
(** * Part I, continued. The rest of the renderer service *)
(* ================================================================== *)

(** ** index.js: the POST /compile handler *)

Module Compile.

(** The body of a compile request: [{ mjml }]. *)
Record Request := {
mjml : prop
}.

Inductive Body :=
| Failure (error : string) (message : option string)
| Compiled (html : string) (warnings : list string).

Record Response := {
status : nat;
json : Body
}.

End Compile.

Definition postCompile (compiler : string -> Outcome MjmlResult)
    (body : Compile.Request) : Eff Compile.Response :=
  tryCatch
    (let mjmlContent := body.(Compile.mjml) in
     if negb (truthy mjmlContent)
     then
       ret {| Compile.status := 400;
              Compile.json := Compile.Failure "Missing MJML content" None |}
     else
       (r <- callMjml compiler (str mjmlContent) ;;
        ret {| Compile.status := 200;
               Compile.json := Compile.Compiled r.(html) (orEmpty r.(errors)) |})%eff)
    (fun message =>
       (tell (ConsoleError ["Compilation error:"; message]) ;;
        ret {| Compile.status := 500;
               Compile.json := Compile.Failure "Failed to compile MJML" (Some message) |})%eff).

(** ** Readings of a whole document *)

(** Every text a component can print for the block holds no opening
    angle bracket. *)
Definition plainBlock (block : Block) : bool :=
  plain (str block.(headline)) && plain (str block.(subcopy))
  && plain (str block.(imageUrl)) && plain (str block.(title))
  && plain (str block.(legal)) && plain (str block.(preferencesUrl))
  && plain (str block.(unsubscribeUrl))
  && match block.(items) with
     | Some l => forallb plainItem l
     | None => true
     end.

(** The product columns a block stands for: one per item for an items
    block, at most three for a recommendations block, none otherwise. *)
Definition columnsOf (block : Block) : nat :=
  if hasType block "hero" then 0
  else if hasType block "items" then
    match block.(items) with Some l => List.length l | None => 0 end
  else if hasType block "recommendations" then
    match block.(items) with Some l => Nat.min 3 (List.length l) | None => 0 end
  else 0.

(** The opening and the closing of the document body, and the opening
    of a link. *)
Definition bodyTag : string := "<mj-body".
Definition bodyEnd : string := "</mj-body>".
Definition linkTag : string := "<a href=".

(** How many effects of a trace are calls of the MJML compiler. *)
Definition mjmlCalls (log : list Effect) : nat :=
  List.length (filter (fun e => match e with MjmlCall _ => true | _ => false end) log).

(** ** The envelope, piece by piece *)

(** The title and the preview element of the document head. *)
Definition titleElement (subject : prop) : string :=
  "<mj-title>" ++ str subject ++ "</mj-title>".

Definition previewElement (preheader : prop) : string :=
  "<mj-preview>" ++ str preheader ++ "</mj-preview>".

(** The default attributes and the two style rules of the head, from the
    end of the preview element to the closing tag of the head. *)
Definition headDefaults (tokens : DesignTokens) : string :=
  "

    <mj-attributes>
      <mj-text color=" ++ dq ++ tokens.(colors).(text) ++ dq ++ " font-family=" ++ dq ++ tokens.(fonts).(body).(family) ++ dq ++ " font-size=" ++ dq ++ tokens.(fonts).(body).(size) ++ dq ++ " line-height=" ++ dq ++ tokens.(fonts).(body).(lineHeight) ++ dq ++ " />
      <mj-button background-color=" ++ dq ++ tokens.(colors).(primary) ++ dq ++ " color=" ++ dq ++ tokens.(colors).(onPrimary) ++ dq ++ " font-family=" ++ dq ++ tokens.(fonts).(body).(family) ++ dq ++ " border-radius=" ++ dq ++ tokens.(radius).(button) ++ dq ++ " />
    </mj-attributes>

    <mj-style>
      .content-padding { padding: " ++ tokens.(spacing).(md) ++ " " ++ tokens.(spacing).(lg) ++ "; }
      .section-spacing { padding-top: " ++ tokens.(spacing).(xl) ++ "; padding-bottom: " ++ tokens.(spacing).(xl) ++ "; }
    </mj-style>
  ".

(** The opening tag of the body. *)
Definition bodyOpen (tokens : DesignTokens) : string :=
  "<mj-body background-color=" ++ dq ++ tokens.(colors).(background) ++ dq ++ ">".

(** The envelope read as a sequence of elements; [envelope_pieces]
    proves it is the text [envelope] computes. *)
Definition envelopePieces (tokens : DesignTokens) (subject preheader : prop)
    (mjmlBlocks : string) : list string :=
  [ "<mjml>
  <mj-head>
    ";
    titleElement subject;
    "
    ";
    previewElement preheader;
    headDefaults tokens;
    "</mj-head>";
    "

  ";
    bodyOpen tokens;
    "
    ";
    mjmlBlocks;
    "
  ";
    "</mj-body>";
    "
</mjml>" ].

(** ** Fields the renderer receives but does not print *)

(** The request with its [locale] replaced. *)
Definition withLocale (l : prop) (t : Template) : Template :=
  {| locale := l;
     templateType := t.(templateType);
     subject := t.(subject);
     preheader := t.(preheader);
     blocks := t.(blocks) |}.

(** The item with its [sku] replaced. *)
Definition withSku (s : prop) (i : Item.t) : Item.t :=
  {| Item.sku := s;
     Item.name := i.(Item.name);
     Item.price := i.(Item.price);
     Item.imageUrl := i.(Item.imageUrl);
     Item.url := i.(Item.url) |}.

(** The block with every item given the SKU [f] chooses for it. *)
Definition reskuBlock (f : Item.t -> prop) (b : Block) : Block :=
  {| type := b.(type);
     headline := b.(headline);
     subcopy := b.(subcopy);
     imageUrl := b.(imageUrl);
     customHtml := b.(customHtml);
     title := b.(title);
     items := option_map (map (fun i => withSku (f i) i)) b.(items);
     legal := b.(legal);
     preferencesUrl := b.(preferencesUrl);
     unsubscribeUrl := b.(unsubscribeUrl) |}.

(** The request with the SKUs of all its blocks replaced. *)
Definition resku (f : Item.t -> prop) (t : Template) : Template :=
  {| locale := t.(locale);
     templateType := t.(templateType);
     subject := t.(subject);
     preheader := t.(preheader);
     blocks := option_map (map (reskuBlock f)) t.(blocks) |}.

(** ** Request bodies with [null] in their arrays *)

(** [JSON.parse] can deliver [null] where the renderer expects an
    object.  The records below are [Block] and [Template] with the two
    arrays holding objects or [null] ([None]). *)
Module Json.

Record Block := {
type : prop;
headline : prop;
subcopy : prop;
imageUrl : prop;
customHtml : prop;
title : prop;
items : option (list (option Item.t));
legal : prop;
preferencesUrl : prop;
unsubscribeUrl : prop
}.

Record Template := {
locale : prop;
templateType : prop;
subject : prop;
preheader : prop;
blocks : option (list (option Block))
}.

End Json.

(** The block object as [heroComponent] and [footerComponent] see it:
    they destructure properties other than [items]. *)
Definition scalars (block : Json.Block) : Block :=
  {| type := block.(Json.type);
     headline := block.(Json.headline);
     subcopy := block.(Json.subcopy);
     imageUrl := block.(Json.imageUrl);
     customHtml := block.(Json.customHtml);
     title := block.(Json.title);
     items := None;
     legal := block.(Json.legal);
     preferencesUrl := block.(Json.preferencesUrl);
     unsubscribeUrl := block.(Json.unsubscribeUrl) |}.

(** The renderer on such bodies: the same functions, with the property
    reads that throw on [null] written out. *)
Module Raw.

(** [items.map(item => `...`)]: the callback of either component reads
    [item.imageUrl] first, which throws when [item] is [null]. *)
Fixpoint mapColumns (column : Item.t -> string) (items : list (option Item.t))
    : Outcome (list string) :=
  match items with
  | [] => Return []
  | None :: _ => Throw "Cannot read properties of null (reading 'imageUrl')"
  | Some item :: rest =>
      match mapColumns column rest with
      | Return columns => Return (column item :: columns)
      | Throw e => Throw e
      end
  end.

(** components/items.js *)
Definition itemsComponent (block : Json.Block) (tokens : DesignTokens)
    : Outcome string :=
  let title := block.(Json.title) in
  let items := block.(Json.items) in
  match items with
  | None => Return ""
  | Some items =>
      if Nat.eqb (List.length items) 0 then Return ""
      else
        match mapColumns (itemsColumn tokens) items with
        | Return columns => Return (itemsSections tokens title (join "" columns))
        | Throw e => Throw e
        end
  end.

(** components/recommendations.js *)
Definition recommendationsComponent (block : Json.Block) (tokens : DesignTokens)
    : Outcome string :=
  let title := block.(Json.title) in
  let items := block.(Json.items) in
  match items with
  | None => Return ""
  | Some items =>
      if Nat.eqb (List.length items) 0 then Return ""
      else
        match mapColumns (recommendationsColumn tokens) (firstn 3 items) with
        | Return columns =>
            Return (recommendationsSections tokens title (join "" columns))
        | Throw e => Throw e
        end
  end.

(** [block.type === tag] *)
Definition hasType (block : Json.Block) (tag : string) : bool :=
  match block.(Json.type) with
  | Some s => s =? tag
  | None => false
  end.

(** The callback of [blocks.map] in [generateMJML]: [block.type] throws
    when [block] is [null]. *)
Definition compileBlock (tokens : DesignTokens) (block : option Json.Block)
    : Eff string :=
  match block with
  | None => (Throw "Cannot read properties of null (reading 'type')", [])
  | Some block =>
      if hasType block "hero" then ret (heroComponent (scalars block) tokens)
      else if hasType block "items" then (itemsComponent block tokens, [])
      else if hasType block "recommendations"
      then (recommendationsComponent block tokens, [])
      else if hasType block "footer"
      then ret (footerComponent (scalars block) tokens)
      else (tell (ConsoleWarn ["Unknown block type: " ++ str block.(Json.type)]) ;;
            ret "")%eff
  end.

(** templates/generator.js *)
Definition generateMJML (template : Json.Template) : Eff string :=
  let templateType := template.(Json.templateType) in
  let subject := template.(Json.subject) in
  let preheader := template.(Json.preheader) in
  let blocks := template.(Json.blocks) in
  let tokens := loadDesignTokens (str templateType) in
  match blocks with
  | None => (Throw "Cannot read properties of undefined (reading 'map')", [])
  | Some blocks =>
      (fragments <- mapM (compileBlock tokens) blocks ;;
       let mjmlBlocks := join "
" fragments in
       ret (envelope tokens subject preheader mjmlBlocks))%eff
  end.

(** index.js: the POST /render handler. *)
Definition postRender (mjml : string -> Outcome MjmlResult)
    (body : Json.Template) : Eff Response :=
  tryCatch
    (let locale := body.(Json.locale) in
     let templateType := body.(Json.templateType) in
     let subject := body.(Json.subject) in
     let preheader := body.(Json.preheader) in
     let blocks := body.(Json.blocks) in
     if negb (truthy templateType) || match blocks with None => true | Some _ => false end
     then
       ret {| status := 400;
              json := ErrorBody "Missing required fields: templateType, blocks" None |}
     else
       (mjmlContent <- generateMJML
          {| Json.locale := locale;
             Json.templateType := templateType;
             Json.subject := subject;
             Json.preheader := preheader;
             Json.blocks := blocks |} ;;
        r <- callMjml mjml mjmlContent ;;
        (match r.(errors) with
         | Some (e :: es) => tell (ConsoleWarn ("MJML compilation warnings:" :: e :: es))
         | _ => ret tt
         end) ;;
        ret {| status := 200;
               json := RenderBody mjmlContent r.(html) (orEmpty r.(errors)) |})%eff)
    (fun message =>
       (tell (ConsoleError ["Render error:"; message]) ;;
        ret {| status := 500;
               json := ErrorBody "Failed to render template" (Some message) |})%eff).

End Raw.

(** A body without [null] as a body that may hold one. *)
Definition ofBlock (block : Block) : Json.Block :=
  {| Json.type := block.(type);
     Json.headline := block.(headline);
     Json.subcopy := block.(subcopy);
     Json.imageUrl := block.(imageUrl);
     Json.customHtml := block.(customHtml);
     Json.title := block.(title);
     Json.items := option_map (map Some) block.(items);
     Json.legal := block.(legal);
     Json.preferencesUrl := block.(preferencesUrl);
     Json.unsubscribeUrl := block.(unsubscribeUrl) |}.

Definition ofTemplate (template : Template) : Json.Template :=
  {| Json.locale := template.(locale);
     Json.templateType := template.(templateType);
     Json.subject := template.(subject);
     Json.preheader := template.(preheader);
     Json.blocks := option_map (map (fun b => Some (ofBlock b))) template.(blocks) |}.

(** Some element of the array is [null]. *)
Definition hasNull {A : Type} (l : list (option A)) : bool :=
  existsb (fun x => match x with None => true | Some _ => false end) l.

(** The element of [blocks] makes its callback read a property of
    [null]: it is [null] itself, or an items block with a [null] item, or
    a recommendations block with a [null] among its first three items. *)
Definition readsNull (block : option Json.Block) : bool :=
  match block with
  | None => true
  | Some b =>
      if Raw.hasType b "hero" then false
      else if Raw.hasType b "items" then
        match b.(Json.items) with Some l => hasNull l | None => false end
      else if Raw.hasType b "recommendations" then
        match b.(Json.items) with Some l => hasNull (firstn 3 l) | None => false end
      else false
  end.

(** [{ templateType: 'cart_abandon', blocks: [{ type: 'items', items: [null] }] }] *)
Definition nullItemBody : Json.Template :=
  {| Json.locale := None; Json.templateType := Some "cart_abandon";
     Json.subject := None; Json.preheader := None;
     Json.blocks :=
       Some [ Some {| Json.type := Some "items"; Json.headline := None;
                      Json.subcopy := None; Json.imageUrl := None;
                      Json.customHtml := None; Json.title := None;
                      Json.items := Some [None]; Json.legal := None;
                      Json.preferencesUrl := None; Json.unsubscribeUrl := None |} ] |}.

(* ================================================================== *)
(** * Part I, continued. The front end *)
(* ================================================================== *)

(** ** Strings read from the user and from the network *)

(** A string of the front end is read as JavaScript has it, a sequence
    of UTF-16 code units, since [trim] there meets every white space
    character of Unicode and not only the ASCII ones. *)
Module U16.

Definition t : Type := list N.

(** The code units of an ASCII literal. *)
Definition ofString (s : string) : t :=
  map N_of_ascii (list_ascii_of_string s).

(** White space and line terminators of ECMAScript, all of them single
    code units: TAB, LF, VT, FF, CR, SP, NBSP, U+1680, U+2000 to U+200A,
    U+2028, U+2029, U+202F, U+205F, U+3000 and U+FEFF. *)
Definition isWhiteSpace (c : N) : bool :=
  existsb (N.eqb c)
    [9; 10; 11; 12; 13; 32; 160; 5760; 8232; 8233; 8239; 8287; 12288; 65279]%N
  || (N.leb 8192 c && N.leb c 8202).

Fixpoint trimStart (s : t) : t :=
  match s with
  | [] => []
  | c :: s' => if isWhiteSpace c then trimStart s' else s
  end.

Fixpoint trimEnd (s : t) : t :=
  match s with
  | [] => []
  | c :: s' =>
      match trimEnd s' with
      | [] => if isWhiteSpace c then [] else [c]
      | r => c :: r
      end
  end.

(** [s.trim()] *)
Definition trim (s : t) : t := trimEnd (trimStart s).

(** [s.split(sep)] for a separator of one character: the pieces between
    the separators, always at least one piece. *)
Fixpoint split (sep : N) (s : t) : list t :=
  match s with
  | [] => [[]]
  | c :: s' =>
      if N.eqb c sep then [] :: split sep s'
      else match split sep s' with
           | piece :: pieces => (c :: piece) :: pieces
           | [] => [[c]]
           end
  end.

(** [pieces.join(sep)] *)
Fixpoint join (sep : t) (pieces : list t) : t :=
  match pieces with
  | [] => []
  | [x] => x
  | x :: xs => (x ++ sep ++ join sep xs)%list
  end.

(** [s.startsWith(p)] *)
Fixpoint startsWith (s p : t) {struct p} : bool :=
  match p, s with
  | [], _ => true
  | _ :: _, [] => false
  | b :: p', a :: s' => N.eqb a b && startsWith s' p'
  end.

(** [s.slice(n)] for [n] within the string. *)
Definition slice (n : nat) (s : t) : t := skipn n s.

(** [Boolean(s)]: a string is truthy when it is not empty. *)
Definition nonEmpty (s : t) : bool :=
  match s with
  | [] => false
  | _ :: _ => true
  end.

(** Every code unit of [s] is white space. *)
Definition blank (s : t) : bool := forallb isWhiteSpace s.

(** The first code unit, if any, is no white space. *)
Definition startsClean (s : t) : Prop :=
  match s with
  | [] => True
  | c :: _ => isWhiteSpace c = false
  end.

End U16.

(** ** app/page.tsx: the SKU field *)

Definition comma : N := 44%N.

(** [skus.split(',').map(s => s.trim()).filter(Boolean)] *)
Definition parseSkus (skus : U16.t) : list U16.t :=
  filter U16.nonEmpty (map U16.trim (U16.split comma skus)).

(** A SKU as the request carries it: not empty, no comma, no white
    space at either end. *)
Definition cleanSku (x : U16.t) : Prop :=
  x <> [] /\ ~ In comma x /\ U16.trim x = x.

(** ** components/MultiAgentLoader.tsx *)

(** What the stream reader does with one line of an event: nothing,
    skip it as empty data, or hand the text to [JSON.parse]. *)
Inductive LineAction :=
| Ignore
| SkipEmpty
| Parse (jsonString : U16.t).

Definition readLine (line : U16.t) : LineAction :=
  if U16.startsWith line (U16.ofString "data: ")
     && Nat.ltb 6 (List.length (U16.trim line))
  then
    let jsonString := U16.trim (U16.slice 6 line) in
    if negb (U16.nonEmpty jsonString) then SkipEmpty
    else Parse jsonString
  else Ignore.

Module Agent.
Record t := {
id : string;
name : string;
icon : string;
color : string;
description : string
}.
End Agent.

(** The agents of the pipeline in display order. *)
Definition agents : list Agent.t :=
  [ {| Agent.id := "supervisor"; Agent.name := "Supervisor"; Agent.icon := "🎯";
       Agent.color := "from-purple-500 to-purple-600";
       Agent.description := "Orchestrazione workflow" |};
    {| Agent.id := "retriever"; Agent.name := "Retriever"; Agent.icon := "🔍";
       Agent.color := "from-blue-500 to-blue-600";
       Agent.description := "Recupero dati prodotti" |};
    {| Agent.id := "asset_curator"; Agent.name := "Asset Curator"; Agent.icon := "🎨";
       Agent.color := "from-green-500 to-green-600";
       Agent.description := "Selezione immagini" |};
    {| Agent.id := "copywriter"; Agent.name := "Copywriter"; Agent.icon := "✍️";
       Agent.color := "from-orange-500 to-orange-600";
       Agent.description := "Generazione copy" |};
    {| Agent.id := "template_layout"; Agent.name := "Template Layout"; Agent.icon := "🏗️";
       Agent.color := "from-pink-500 to-pink-600";
       Agent.description := "Composizione template" |};
    {| Agent.id := "render"; Agent.name := "Render"; Agent.icon := "⚡";
       Agent.color := "from-indigo-500 to-indigo-600";
       Agent.description := "Rendering finale" |} ].

(** [array.findIndex(f)]: the index of the first element [f] accepts,
    or -1. *)
Fixpoint findIndexFrom {A : Type} (f : A -> bool) (l : list A) (i : Z) : Z :=
  match l with
  | [] => (-1)%Z
  | a :: l' => if f a then i else findIndexFrom f l' (i + 1)%Z
  end.

Definition findIndex {A : Type} (f : A -> bool) (l : list A) : Z :=
  findIndexFrom f l 0%Z.

(** [set.add(x)] on a set kept in insertion order. *)
Definition setAdd (x : string) (s : list string) : list string :=
  if existsb (String.eqb x) s then s else (s ++ [x])%list.

(** The body of [for (let i = 0; i < agentIndex; i++)], run for the
    indices below [agentIndex]; reading past the end of [agents] would
    throw. *)
Fixpoint markCompleted (indices : list nat) (completed : list string)
    : Outcome (list string) :=
  match indices with
  | [] => Return completed
  | i :: rest =>
      match nth_error agents i with
      | Some a => markCompleted rest (setAdd a.(Agent.id) completed)
      | None => Throw "Cannot read properties of undefined (reading 'id')"
      end
  end.

(** The set of completed agents a progress event for [agent] leads to. *)
Definition completedBefore (agent : string) : Outcome (list string) :=
  let agentIndex := findIndex (fun a => a.(Agent.id) =? agent) agents in
  markCompleted (seq 0 (Z.to_nat agentIndex)) [].

(** ** app/api: the two routes that forward to the orchestrator *)

Module Proxy.

(** What [fetch] resolves to: the status line and the outcome of reading
    the body as JSON, over any type [J] of JSON values. *)
Record Upstream (J : Type) := {
status : nat;
statusText : string;
json : Outcome J
}.

Arguments status {J} _.
Arguments statusText {J} _.
Arguments json {J} _.

(** [response.ok]: the status is in the range 200 to 299. *)
Definition ok {J : Type} (r : Upstream J) : bool :=
  Nat.leb 200 r.(status) && Nat.leb r.(status) 299.

Inductive Effect :=
| Fetch (url : string)
| ConsoleError (label message : string).

(** The addresses called, in order. *)
Definition fetches (log : list Effect) : list string :=
  flat_map (fun e => match e with Fetch url => [url] | ConsoleError _ _ => [] end) log.

(** [NextResponse.json(data)] and [NextResponse.json({ error }, { status })]. *)
Inductive Reply (J : Type) :=
| Data (data : J)
| Failed (status : nat) (error : string).

Arguments Data {J} data.
Arguments Failed {J} status error.

(** [process.env.ORCHESTRATOR_URL || 'http://localhost:8000'] *)
Definition orchestratorUrl (env : prop) : string :=
  if truthy env then str env else "http://localhost:8000".

(** The decimal text of a status in a template literal. *)
Definition decimal (n : nat) : string :=
  NilEmpty.string_of_uint (Nat.to_uint n).

(** app/api/generate/route.ts: [request] is the outcome of
    [request.json()], [fetch] the call to the orchestrator. *)
Definition generateRoute {J B : Type} (env : prop)
    (request : Outcome B) (fetch : string -> B -> Outcome (Upstream J))
    : Reply J * list Effect :=
  match request with
  | Throw e =>
      (Failed 500 "Failed to generate email", [ConsoleError "API route error:" e])
  | Return body =>
      let url := orchestratorUrl env ++ "/generate" in
      match fetch url body with
      | Throw e =>
          (Failed 500 "Failed to generate email",
           [Fetch url; ConsoleError "API route error:" e])
      | Return response =>
          if negb (ok response)
          then
            (Failed 500 "Failed to generate email",
             [Fetch url;
              ConsoleError "API route error:"
                ("Orchestrator error: " ++ decimal response.(status))])
          else
            match response.(json) with
            | Throw e =>
                (Failed 500 "Failed to generate email",
                 [Fetch url; ConsoleError "API route error:" e])
            | Return data => (Data data, [Fetch url])
            end
      end
  end.

(** app/api/upload-template/route.ts: [request] is the outcome of
    [request.formData()]. *)
Definition uploadRoute {J B : Type} (env : prop)
    (request : Outcome B) (fetch : string -> B -> Outcome (Upstream J))
    : Reply J * list Effect :=
  match request with
  | Throw e =>
      (Failed 500 "Failed to upload template",
       [ConsoleError "Template upload error:" e])
  | Return formData =>
      let url := orchestratorUrl env ++ "/upload-template" in
      match fetch url formData with
      | Throw e =>
          (Failed 500 "Failed to upload template",
           [Fetch url; ConsoleError "Template upload error:" e])
      | Return response =>
          if negb (ok response)
          then
            (Failed 500 "Failed to upload template",
             [Fetch url;
              ConsoleError "Template upload error:"
                ("Upload failed: " ++ response.(statusText))])
          else
            match response.(json) with
            | Throw e =>
                (Failed 500 "Failed to upload template",
                 [Fetch url; ConsoleError "Template upload error:" e])
            | Return data => (Data data, [Fetch url])
            end
      end
  end.

End Proxy.

(* ================================================================== *)
(** * Part II. Facts about strings *)
(* ================================================================== *)

Module StrFacts.

Lemma append_empty_r (s : string) : s ++ "" = s.
Proof. induction s as [|c s IH]; simpl; [reflexivity | now rewrite IH]. Qed.

Lemma append_assoc (a b c : string) : (a ++ b) ++ c = a ++ b ++ c.
Proof. induction a as [|x a IH]; simpl; [reflexivity | now rewrite IH]. Qed.

Lemma length_append (a b : string) :
  String.length (a ++ b) = String.length a + String.length b.
Proof. induction a as [|x a IH]; simpl; [reflexivity | now rewrite IH]. Qed.

(** *** trim *)

Lemma blank_append (a b : string) : blank (a ++ b) = blank a && blank b.
Proof.
  induction a as [|x a IH]; simpl; [reflexivity|].
  now rewrite IH, andb_assoc.
Qed.

Lemma blank_append_r (a b : string) : blank b = false -> blank (a ++ b) = false.
Proof. intros H. rewrite blank_append, H. apply andb_false_r. Qed.

Lemma trimEnd_empty (s : string) : trimEnd s = "" -> blank s = true.
Proof.
  induction s as [|c s IH]; simpl; [reflexivity|].
  destruct (trimEnd s) eqn:E.
  - destruct (is_ws c); [intros _; now rewrite IH | discriminate].
  - discriminate.
Qed.

Lemma trimEnd_append (a b : string) :
  blank b = false -> trimEnd (a ++ b) = a ++ trimEnd b.
Proof.
  intros Hb. induction a as [|c a IH]; simpl; [reflexivity|].
  rewrite IH. destruct (a ++ trimEnd b) eqn:E; [|reflexivity].
  exfalso. destruct a; simpl in E; [|discriminate].
  apply trimEnd_empty in E. congruence.
Qed.

Lemma trimStart_append (a b : string) :
  blank a = false -> trimStart (a ++ b) = trimStart a ++ b.
Proof.
  induction a as [|c a IH]; simpl; [discriminate|].
  destruct (is_ws c); simpl; [exact IH | reflexivity].
Qed.

(** *** startsWith, includes and Includes *)

Lemma startsWith_spec (s p : string) :
  startsWith s p = true <-> exists b, s = p ++ b.
Proof.
  revert s. induction p as [|c p IH]; intros s; simpl.
  - split; [intros _; now exists s | reflexivity].
  - destruct s as [|a s].
    + split; [discriminate | intros [b Hb]; discriminate].
    + rewrite andb_true_iff, Ascii.eqb_eq, IH. split.
      * intros [-> [b ->]]. now exists b.
      * intros [b Hb]. injection Hb as -> ->. split; [reflexivity | now exists b].
Qed.

Lemma includes_spec (s p : string) : includes s p = true <-> Includes s p.
Proof.
  unfold Includes. induction s as [|c s IH].
  - simpl. rewrite orb_false_r, startsWith_spec. split.
    + intros [b Hb]. now exists "", b.
    + intros [a [b Hab]]. destruct a; simpl in Hab; [now exists b | discriminate].
  - cbn [includes]. rewrite orb_true_iff, startsWith_spec, IH. split.
    + intros [[b Hb] | [a [b Hab]]].
      * now exists "", b.
      * exists (String c a), b. simpl. now rewrite Hab.
    + intros [a [b Hab]]. destruct a as [|x a]; simpl in Hab.
      * left. now exists b.
      * right. injection Hab as -> ->. now exists a, b.
Qed.

Lemma Includes_here (p b : string) : Includes (p ++ b) p.
Proof. now exists "", b. Qed.

Lemma Includes_skip (a s p : string) : Includes s p -> Includes (a ++ s) p.
Proof.
  intros [x [y ->]]. exists (a ++ x), y. now rewrite append_assoc.
Qed.

Lemma Includes_length (s p : string) :
  Includes s p -> String.length p <= String.length s.
Proof. intros [a [b ->]]. rewrite !length_append. lia. Qed.

Lemma Before_skip (a s p q : string) : Before s p q -> Before (a ++ s) p q.
Proof.
  intros [x [y [z ->]]]. exists (a ++ x), y, z. now rewrite append_assoc.
Qed.

(** *** occurrences *)

Lemma startsWith_inside (a p b : string) :
  startsWith p a && Nat.ltb (String.length a) (String.length p) = false ->
  startsWith (a ++ b) p = startsWith a p.
Proof.
  revert p. induction a as [|c a IH]; intros p H.
  - destruct p; [reflexivity | discriminate].
  - destruct p as [|d p]; [reflexivity|]. simpl in *.
    rewrite (Ascii.eqb_sym d c) in H.
    destruct (Ascii.eqb c d); [|reflexivity]. simpl in *. now apply IH.
Qed.

(** When no occurrence of [p] can start in [a] and run past its end,
    occurrences in [a ++ b] are those in [a] and those in [b]. *)
Lemma occurrences_append (p a b : string) :
  overhang p a = false ->
  occurrences p (a ++ b) = occurrences p a + occurrences p b.
Proof.
  induction a as [|c a IH]; intros H; [reflexivity|].
  cbn [overhang] in H. apply orb_false_iff in H as [H1 H2].
  change (String c a ++ b) with (String c (a ++ b)).
  cbn [occurrences].
  change (String c (a ++ b)) with (String c a ++ b).
  rewrite (startsWith_inside _ _ _ H1), (IH H2). lia.
Qed.

Section Tag.

(** The rest of a needle that opens a tag: the needle is [p'] behind an
    opening angle bracket. *)
Variable p' : string.

Lemma plain_no_start (s : string) :
  plain s = true -> startsWith s (String "<"%char p') = false.
Proof.
  destruct s as [|c s]; [reflexivity|]. unfold plain. simpl.
  destruct (Ascii.eqb c "<"); [discriminate | reflexivity].
Qed.

Lemma plain_overhang (s : string) :
  plain s = true -> overhang (String "<"%char p') s = false.
Proof.
  induction s as [|c s IH]; [reflexivity|]. unfold plain in *. cbn [avoids overhang].
  rewrite andb_true_iff, negb_true_iff. intros [Hc Hs].
  rewrite (IH Hs), orb_false_r. cbn [startsWith].
  rewrite Ascii.eqb_sym, Hc. reflexivity.
Qed.

Lemma plain_occurrences (s : string) :
  plain s = true -> occurrences (String "<"%char p') s = 0.
Proof.
  induction s as [|c s IH]; [reflexivity|]. intros H.
  cbn [occurrences]. rewrite (plain_no_start _ H).
  unfold plain in *. cbn [avoids] in H. apply andb_true_iff in H as [_ H].
  now rewrite (IH H).
Qed.

End Tag.

(** *** Counting piece by piece *)

Lemma startsWith_shorter (p s : string) :
  startsWith p s = true -> String.length s <= String.length p.
Proof.
  intros H. apply startsWith_spec in H as [b ->]. rewrite length_append. lia.
Qed.

Lemma startsWith_prefix (p a b : string) :
  startsWith p (a ++ b) = true -> startsWith p a = true.
Proof.
  rewrite !startsWith_spec. intros [c ->]. exists (b ++ c).
  now rewrite append_assoc.
Qed.

Lemma overhang_append (p a b : string) :
  overhang p a = false -> overhang p b = false -> overhang p (a ++ b) = false.
Proof.
  intros Ha Hb. induction a as [|c a IH]; [exact Hb|].
  cbn [overhang] in Ha. apply orb_false_iff in Ha as [H1 H2].
  change (String c a ++ b) with (String c (a ++ b)). cbn [overhang].
  rewrite (IH H2), orb_false_r.
  change (String c (a ++ b)) with (String c a ++ b).
  destruct (startsWith p (String c a ++ b)) eqn:E; [|reflexivity].
  pose proof (startsWith_shorter _ _ E) as Hlen.
  rewrite (startsWith_prefix _ _ _ E) in H1. simpl in H1.
  rewrite length_append in *.
  apply Nat.ltb_ge in H1. simpl. apply Nat.ltb_ge. lia.
Qed.

Lemma tame_append (p a b : string) (n m : nat) :
  Tame p a n -> Tame p b m -> Tame p (a ++ b) (n + m).
Proof.
  intros [Ha <-] [Hb <-]. split.
  - now apply overhang_append.
  - now apply occurrences_append.
Qed.

Lemma tame_closed (p s : string) :
  overhang p s = false -> Tame p s (occurrences p s).
Proof. now split. Qed.

Lemma tame_plain (p' s : string) :
  plain s = true -> Tame (String "<"%char p') s 0.
Proof.
  intros H. split; [now apply plain_overhang | now apply plain_occurrences].
Qed.

Lemma tame_count (p s : string) (n m : nat) : Tame p s n -> n = m -> Tame p s m.
Proof. now intros H <-. Qed.

Lemma join_empty_cons (x : string) (xs : list string) :
  join "" (x :: xs) = x ++ join "" xs.
Proof.
  destruct xs; simpl; [now rewrite append_empty_r | reflexivity].
Qed.

(** Pieces that each hold [p] once, joined with nothing between them. *)
Lemma tame_join_once {A : Type} (p : string) (f : A -> string) (l : list A) :
  Forall (fun a => Tame p (f a) 1) l ->
  Tame p (join "" (map f l)) (List.length l).
Proof.
  intros H. induction H as [|a l Ha Hl IH].
  - split; reflexivity.
  - cbn [map]. rewrite join_empty_cons. cbn [List.length].
    change (S (List.length l)) with (1 + List.length l).
    now apply tame_append.
Qed.

(** *** Order and inclusion in concatenations and joins *)

Lemma Before_append_r (s z p q : string) : Before s p q -> Before (s ++ z) p q.
Proof.
  intros [a [b [c ->]]]. exists a, b, (c ++ z). now rewrite !append_assoc.
Qed.

Lemma Includes_append_r (s z p : string) : Includes s p -> Includes (s ++ z) p.
Proof.
  intros [a [b ->]]. exists a, (b ++ z). now rewrite !append_assoc.
Qed.


Lemma Includes_here3 (a b c rest : string) :
  Includes (a ++ b ++ c ++ rest) (a ++ b ++ c).
Proof. exists "", rest. simpl. now rewrite !append_assoc. Qed.

Lemma join_head (sep x : string) (xs : list string) :
  exists c, join sep (x :: xs) = x ++ c.
Proof.
  destruct xs as [|y ys].
  - exists "". simpl. now rewrite append_empty_r.
  - now exists (sep ++ join sep (y :: ys)).
Qed.

Lemma join_cons (sep x y : string) (ys : list string) :
  join sep (x :: y :: ys) = x ++ sep ++ join sep (y :: ys).
Proof. reflexivity. Qed.

Lemma join_Includes (sep x : string) (xs : list string) :
  In x xs -> Includes (join sep xs) x.
Proof.
  induction xs as [|y ys IH]; [contradiction|]. intros [->|H].
  - destruct (join_head sep x ys) as [c ->]. apply Includes_here.
  - destruct ys as [|z zs]; [contradiction|]. rewrite join_cons.
    apply Includes_skip, Includes_skip, IH, H.
Qed.

(** An earlier element of the array is printed before a later one. *)
Lemma join_Before (sep a b : string) (l1 l2 l3 : list string) :
  Before (join sep (l1 ++ a :: l2 ++ b :: l3)) a b.
Proof.
  assert (Hmid : forall l2, exists m c, join sep (l2 ++ b :: l3) = m ++ b ++ c).
  { clear l2. induction l2 as [|x l2 [m [c IH]]].
    - destruct (join_head sep b l3) as [c Hc]. exists "", c. exact Hc.
    - exists (x ++ sep ++ m), c. cbn [app].
      destruct (l2 ++ b :: l3)%list eqn:E; [now destruct l2|].
      rewrite join_cons, IH. now rewrite !append_assoc. }
  induction l1 as [|x l1 IH].
  - cbn [app]. destruct (Hmid l2) as [m [c Hm]].
    destruct (l2 ++ b :: l3)%list eqn:E; [now destruct l2|].
    rewrite join_cons, Hm. exists "", (sep ++ m), c. now rewrite !append_assoc.
  - cbn [app]. destruct (l1 ++ a :: l2 ++ b :: l3)%list eqn:E; [now destruct l1|].
    rewrite join_cons. now apply Before_skip, Before_skip.
Qed.

Lemma length_replicate (n : nat) (c : ascii) : String.length (replicate n c) = n.
Proof. induction n as [|n IH]; simpl; [reflexivity | now rewrite IH]. Qed.

Lemma includes_longer (w tag : string) :
  String.length w < String.length tag -> includes w tag = false.
Proof.
  intros H. destruct (includes w tag) eqn:E; [|reflexivity].
  apply includes_spec, Includes_length in E. lia.
Qed.

End StrFacts.

(* ================================================================== *)
(** * Part III. The text of the components *)
(* ================================================================== *)

Import StrFacts.

(** Pushes [trim] through a template: the leading literal loses its
    white space, the closing literal its own, nothing between moves. *)
Ltac blank_tac := first [ reflexivity | apply blank_append_r; blank_tac ].

Ltac trim_template :=
  unfold trim;
  rewrite trimStart_append by reflexivity;
  repeat rewrite trimEnd_append by blank_tac.

(** Splits [plainTokens t = true] into one fact per leaf. *)
Ltac plain_tokens H :=
  unfold plainTokens, leaves in H; cbn [forallb snd] in H;
  repeat (let H' := fresh "Hleaf" in apply andb_true_iff in H as [H' H]).

Ltac plain_tac := first [ assumption | reflexivity ].

(** Counts the occurrences of a tag in a concatenation piece by piece:
    a literal piece is counted by evaluation, a piece with no opening
    angle bracket counts for nothing. *)
Ltac tame :=
  lazymatch goal with
  | |- Tame _ (_ ++ _) _ => eapply tame_append; [tame | tame]
  | |- Tame _ _ _ =>
      first [ eassumption
            | eapply tame_plain; plain_tac
            | apply tame_closed; vm_compute; reflexivity ]
  end.

(** Evaluates the counts of the literal pieces. *)
Ltac count_literals :=
  repeat match goal with
  | |- context [occurrences ?p ?s] =>
      let v := eval vm_compute in (occurrences p s) in
      change (occurrences p s) with v
  end.

Ltac tame_total := eapply tame_count; [tame | count_literals; lia].

Section ComponentText.

Variable t : DesignTokens.
Hypothesis Ht : plainTokens t = true.

Lemma heroComponent_texts (b : Block) :
  plainHero b = true ->
  Tame textTag (heroComponent b t) (if truthy b.(subcopy) then 2 else 1).
Proof.
  intros Hb. unfold plainHero in Hb.
  apply andb_true_iff in Hb as [Hb Hi]. apply andb_true_iff in Hb as [Hh Hs].
  pose proof Ht as Hl. plain_tokens Hl.
  unfold heroComponent, heroSection, heroImage, heroSubcopy, textTag. cbv zeta.
  trim_template.
  destruct (truthy (imageUrl b)); destruct (truthy (subcopy b)); tame_total.
Qed.

Lemma heroComponent_images (b : Block) :
  plainHero b = true ->
  Tame imageTag (heroComponent b t) (if truthy b.(imageUrl) then 1 else 0).
Proof.
  intros Hb. unfold plainHero in Hb.
  apply andb_true_iff in Hb as [Hb Hi]. apply andb_true_iff in Hb as [Hh Hs].
  pose proof Ht as Hl. plain_tokens Hl.
  unfold heroComponent, heroSection, heroImage, heroSubcopy, imageTag. cbv zeta.
  trim_template.
  destruct (truthy (imageUrl b)); destruct (truthy (subcopy b)); tame_total.
Qed.

Lemma itemsColumn_once (it : Item.t) :
  plainItem it = true -> Tame columnTag (itemsColumn t it) 1.
Proof.
  intros Hi. unfold plainItem in Hi.
  apply andb_true_iff in Hi as [Hi Hu]. apply andb_true_iff in Hi as [Hi Hm].
  apply andb_true_iff in Hi as [Hn Hp].
  pose proof Ht as Hl. plain_tokens Hl.
  unfold itemsColumn, columnTag. tame_total.
Qed.

Lemma recommendationsColumn_once (it : Item.t) :
  plainItem it = true -> Tame columnTag (recommendationsColumn t it) 1.
Proof.
  intros Hi. unfold plainItem in Hi.
  apply andb_true_iff in Hi as [Hi Hu]. apply andb_true_iff in Hi as [Hi Hm].
  apply andb_true_iff in Hi as [Hn Hp].
  pose proof Ht as Hl. plain_tokens Hl.
  unfold recommendationsColumn, columnTag. tame_total.
Qed.

(** The sections around the columns open no product column of their
    own. *)
Lemma itemsSections_columns (title : prop) (markup : string) (n : nat) :
  plain (str title) = true ->
  Tame columnTag markup n ->
  Tame columnTag (itemsSections t title markup) n.
Proof.
  intros Hti Hm. pose proof Ht as Hl. plain_tokens Hl.
  unfold itemsSections, columnTag in *. trim_template.
  tame_total.
Qed.

Lemma recommendationsSections_columns (title : prop) (markup : string) (n : nat) :
  plain (str title) = true ->
  Tame columnTag markup n ->
  Tame columnTag (recommendationsSections t title markup) n.
Proof.
  intros Hti Hm. pose proof Ht as Hl. plain_tokens Hl.
  unfold recommendationsSections, columnTag in *. trim_template.
  tame_total.
Qed.

End ComponentText.

(* ================================================================== *)
(** * Part IV. The generator and the handler *)
(* ================================================================== *)

Arguments envelope : simpl never.
Arguments heroSection : simpl never.
Arguments itemsSections : simpl never.
Arguments recommendationsSections : simpl never.
Arguments heroComponent : simpl never.
Arguments itemsComponent : simpl never.
Arguments recommendationsComponent : simpl never.
Arguments footerComponent : simpl never.

Lemma compileBlock_eq (t : DesignTokens) (b : Block) :
  compileBlock t b = (Return (fragment t b), blockLog t b).
Proof.
  unfold fragment, blockLog, compileBlock.
  destruct (hasType b "hero"); [reflexivity|].
  destruct (hasType b "items"); [reflexivity|].
  destruct (hasType b "recommendations"); [reflexivity|].
  destruct (hasType b "footer"); reflexivity.
Qed.

Lemma compileBlock_unknown (t : DesignTokens) (b : Block) :
  unknownType b = true ->
  compileBlock t b
    = (Return "", [ConsoleWarn ["Unknown block type: " ++ str b.(type)]]).
Proof.
  unfold unknownType, compileBlock. rewrite negb_true_iff. intros H.
  apply orb_false_iff in H as [H Hf]. apply orb_false_iff in H as [H Hr].
  apply orb_false_iff in H as [Hh Hi]. now rewrite Hh, Hi, Hr, Hf.
Qed.

Lemma compileBlock_known (t : DesignTokens) (b : Block) :
  unknownType b = false -> blockLog t b = [].
Proof.
  unfold unknownType, blockLog, compileBlock. rewrite negb_false_iff.
  destruct (hasType b "hero"); [reflexivity|].
  destruct (hasType b "items"); [reflexivity|].
  destruct (hasType b "recommendations"); [reflexivity|].
  destruct (hasType b "footer"); [reflexivity | discriminate].
Qed.

Lemma unknownType_tag (b : Block) (tag : string) :
  b.(type) = Some tag -> ~ In tag knownTags -> unknownType b = true.
Proof.
  intros Hb Hn. unfold unknownType, hasType. rewrite Hb.
  apply negb_true_iff. repeat (apply orb_false_iff; split);
    apply String.eqb_neq; intros ->; apply Hn; simpl; tauto.
Qed.

(** [blocks.map] returns the fragments of the blocks in document order
    and leaves their console output in the same order. *)
Lemma mapM_compileBlock (t : DesignTokens) (bs : list Block) :
  mapM (compileBlock t) bs
    = (Return (map (fragment t) bs), flat_map (blockLog t) bs).
Proof.
  induction bs as [|b bs IH]; [reflexivity|].
  cbn [mapM map flat_map]. rewrite compileBlock_eq, IH.
  unfold bind, ret. now rewrite app_nil_r.
Qed.

Lemma generateMJML_eq (template : Template) (bs : list Block) :
  template.(blocks) = Some bs ->
  generateMJML template
    = (Return (markupOf template bs), flat_map (blockLog (tokensOf template)) bs).
Proof.
  intros H. unfold generateMJML, markupOf, tokensOf. cbv zeta. rewrite H.
  rewrite mapM_compileBlock. unfold bind, ret. now rewrite app_nil_r.
Qed.

(** What the handler does once both required fields are there. *)
Lemma postRender_run (mjml : string -> Outcome MjmlResult)
    (body : Template) (bs : list Block) :
  truthy body.(templateType) = true ->
  body.(blocks) = Some bs ->
  postRender mjml body =
    match mjml (markupOf body bs) with
    | Return r =>
        (Return {| status := 200;
                   json := RenderBody (markupOf body bs) r.(html) (orEmpty r.(errors)) |},
         flat_map (blockLog (tokensOf body)) bs
         ++ MjmlCall (markupOf body bs)
            :: match r.(errors) with
               | Some (e :: es) => [ConsoleWarn ("MJML compilation warnings:" :: e :: es)]
               | _ => []
               end)%list
    | Throw e =>
        (Return {| status := 500;
                   json := ErrorBody "Failed to render template" (Some e) |},
         flat_map (blockLog (tokensOf body)) bs
         ++ [MjmlCall (markupOf body bs); ConsoleError ["Render error:"; e]])%list
    end.
Proof.
  intros Ht Hb. destruct body as [loc tt subj pre blks]. simpl in Ht, Hb. subst blks.
  unfold postRender. cbv zeta. cbn [locale templateType subject preheader blocks].
  rewrite Ht. cbn [negb orb].
  rewrite generateMJML_eq with (bs := bs) by reflexivity.
  unfold bind at 1. unfold callMjml. unfold bind at 1.
  destruct (mjml _) as [r|e].
  - destruct r as [h errs]. cbn [errors html].
    destruct errs as [[|e es]|]; unfold bind, tell, ret, tryCatch; cbn [orEmpty];
      rewrite ?app_nil_r, <- ?app_assoc; reflexivity.
  - unfold tryCatch, bind, tell, ret. now rewrite <- app_assoc.
Qed.

(** *** The envelope and the joined fragments *)

(** Walks down a concatenation to the piece [x]. *)
Ltac skip_to x :=
  lazymatch goal with
  | |- Before (x ++ _) _ _ => apply Before_append_r
  | |- Before (_ ++ _) _ _ => apply Before_skip; skip_to x
  | |- Includes (x ++ _) _ => apply Includes_append_r
  | |- Includes (_ ++ _) _ => apply Includes_skip; skip_to x
  end.

(** The envelope prints the joined fragments unchanged, so what is in
    them, and the order of what is in them, is kept. *)
Lemma envelope_Includes (t : DesignTokens) (subject preheader : prop)
    (mjmlBlocks x : string) :
  Includes mjmlBlocks x -> Includes (envelope t subject preheader mjmlBlocks) x.
Proof.
  intros H. unfold envelope. trim_template. skip_to mjmlBlocks. exact H.
Qed.

Lemma envelope_Before (t : DesignTokens) (subject preheader : prop)
    (mjmlBlocks x y : string) :
  Before mjmlBlocks x y -> Before (envelope t subject preheader mjmlBlocks) x y.
Proof.
  intros H. unfold envelope. trim_template. skip_to mjmlBlocks. exact H.
Qed.

(* ================================================================== *)
(** * Part V. The token resolver *)
(* ================================================================== *)

Lemma leafAt_other (path p v : string) (l : list (string * string)) :
  path <> p -> leafAt path ((p, v) :: l) = leafAt path l.
Proof. intros H. cbn [leafAt]. apply String.eqb_neq in H. now rewrite H. Qed.

(** The leaves of a known category are those of the defaults behind a
    first entry for [colors.primary]. *)
Lemma leaves_known (category : string) :
  In category knownCategories ->
  exists v, leaves (loadDesignTokens category)
              = ("colors.primary", v) :: tl (leaves defaultTokens).
Proof.
  intros [<-|[<-|[<-|[]]]]; eexists; reflexivity.
Qed.

Lemma assoc_unknown (category : string) :
  ~ In category knownCategories -> assoc category templateOverrides = None.
Proof.
  intros H. unfold templateOverrides. cbn [assoc].
  repeat match goal with
  | |- context [category =? ?k] =>
      let E := fresh "E" in
      destruct (String.eqb_spec category k) as [E|E];
      [exfalso; apply H; rewrite E; simpl; tauto|]
  end.
  reflexivity.
Qed.

(** C1. For each of the three known template categories the token set
    [loadDesignTokens] returns agrees with the default token set on every
    leaf other than [colors.primary]: the leaf at any other path is the
    default one, and [colors.secondary] in particular keeps its default
    value. *)
Theorem C1_known_category_changes_only_primary (category path : string) :
  In category knownCategories ->
  path <> "colors.primary" ->
  leafAt path (leaves (loadDesignTokens category))
    = leafAt path (leaves defaultTokens)
  /\ (loadDesignTokens category).(colors).(secondary)
       = defaultTokens.(colors).(secondary)
  /\ (loadDesignTokens category).(colors)
       = withPrimary defaultTokens.(colors)
           (loadDesignTokens category).(colors).(primary)
  /\ (loadDesignTokens category).(fonts) = defaultTokens.(fonts)
  /\ (loadDesignTokens category).(spacing) = defaultTokens.(spacing)
  /\ (loadDesignTokens category).(radius) = defaultTokens.(radius).
Proof.
  intros Hc Hp. split.
  - destruct (leaves_known category Hc) as [v ->].
    change (leaves defaultTokens)
      with (("colors.primary", "#2563eb") :: tl (leaves defaultTokens)) at 2.
    now rewrite !leafAt_other.
  - destruct Hc as [<-|[<-|[<-|[]]]]; repeat split; reflexivity.
Qed.

(** The urgency red of [cart_abandon] leaves [colors.secondary] alone. *)
Lemma C1_cart_abandon_keeps_secondary :
  In "cart_abandon" knownCategories
  /\ "colors.secondary" <> "colors.primary"
  /\ leafAt "colors.secondary" (leaves (loadDesignTokens "cart_abandon"))
       = Some "#64748b"
  /\ leafAt "colors.primary" (leaves (loadDesignTokens "cart_abandon"))
       = Some "#dc2626".
Proof.
  assert (Hin : In "cart_abandon" knownCategories) by (simpl; tauto).
  assert (Hne : "colors.secondary" <> "colors.primary") by discriminate.
  split; [exact Hin|]. split; [exact Hne|]. split; [|reflexivity].
  rewrite (proj1 (C1_known_category_changes_only_primary
                    "cart_abandon" "colors.secondary" Hin Hne)).
  reflexivity.
Defined.

(** C5. For a category string outside the three known ones
    [loadDesignTokens], a total function of the string, returns the
    default token set unchanged. *)
Theorem C5_unknown_category_gives_defaults (category : string) :
  ~ In category knownCategories ->
  loadDesignTokens category = defaultTokens.
Proof.
  intros H. unfold loadDesignTokens, lookupOverride.
  rewrite (assoc_unknown _ H).
  destruct (existsb (String.eqb category) inheritedNames); reflexivity.
Qed.

(** A category nobody defined, and a name every object inherits. *)
Lemma C5_newsletter_gives_defaults :
  ~ In "newsletter" knownCategories
  /\ loadDesignTokens "newsletter" = defaultTokens
  /\ loadDesignTokens "constructor" = defaultTokens.
Proof.
  assert (H : ~ In "newsletter" knownCategories).
  { simpl. intros [H|[H|[H|[]]]]; discriminate H. }
  assert (H' : ~ In "constructor" knownCategories).
  { simpl. intros [E|[E|[E|[]]]]; discriminate E. }
  split; [exact H|]. split.
  - exact (C5_unknown_category_gives_defaults "newsletter" H).
  - exact (C5_unknown_category_gives_defaults "constructor" H').
Defined.

(* ================================================================== *)
(** * Part VI. The block compilers *)
(* ================================================================== *)

(** C8. An items block and a recommendations block whose [items] are
    missing or the empty array compile to the empty string. *)
Theorem C8_no_items_no_fragment (block : Block) (tokens : DesignTokens) :
  block.(items) = None \/ block.(items) = Some [] ->
  itemsComponent block tokens = ""
  /\ recommendationsComponent block tokens = "".
Proof.
  unfold itemsComponent, recommendationsComponent.
  intros [H|H]; rewrite H; split; reflexivity.
Qed.

Lemma C8_empty_array_no_fragment :
  (itemsBlock "items" (Some "Il tuo carrello") (Some [])).(items) = Some []
  /\ itemsComponent (itemsBlock "items" (Some "Il tuo carrello") (Some []))
       defaultTokens = ""
  /\ recommendationsComponent
       (itemsBlock "items" (Some "Il tuo carrello") (Some [])) defaultTokens = "".
Proof.
  split; [reflexivity|].
  apply (C8_no_items_no_fragment
           (itemsBlock "items" (Some "Il tuo carrello") (Some [])) defaultTokens).
  right. reflexivity.
Defined.

Lemma length_firstn_3 {A : Type} (l : list A) :
  List.length (firstn 3 l) = Nat.min 3 (List.length l).
Proof. apply length_firstn. Qed.

Lemma nonempty_length {A : Type} (l : list A) :
  l <> [] -> Nat.eqb (List.length l) 0 = false.
Proof. destruct l; [congruence | reflexivity]. Qed.

(** C4. Whatever the number of items supplied, the recommendations
    fragment is built from the first three items only, in their order:
    its columns are the joined columns of [firstn 3 items], and it opens
    as many product columns as the smaller of 3 and the number of items,
    provided the printed texts open no tag themselves. *)
Theorem C4_recommendations_first_three (tokens : DesignTokens) (block : Block)
    (its : list Item.t) :
  block.(items) = Some its ->
  recommendationsComponent block tokens
    = match its with
      | [] => ""
      | _ => recommendationsSections tokens block.(title)
               (join "" (map (recommendationsColumn tokens) (firstn 3 its)))
      end
  /\ (plainTokens tokens = true ->
      plain (str block.(title)) = true ->
      Forall (fun it => plainItem it = true) (firstn 3 its) ->
      occurrences columnTag (recommendationsComponent block tokens)
        = Nat.min 3 (List.length its)).
Proof.
  intros Hb.
  assert (E : recommendationsComponent block tokens
              = match its with
                | [] => ""
                | _ => recommendationsSections tokens block.(title)
                         (join "" (map (recommendationsColumn tokens) (firstn 3 its)))
                end).
  { unfold recommendationsComponent. rewrite Hb. now destruct its. }
  split; [exact E|]. intros Ht Hti Hits.
  rewrite E. destruct its as [|i its]; [reflexivity|].
  rewrite <- length_firstn_3.
  apply recommendationsSections_columns; [exact Ht | exact Hti |].
  apply tame_join_once.
  eapply Forall_impl; [|exact Hits]. intros it. apply recommendationsColumn_once, Ht.
Qed.

(** Five items supplied, three product columns compiled. *)
Lemma C4_five_items_three_columns :
  occurrences columnTag
    (recommendationsComponent
       (itemsBlock "recommendations" (Some "Ti potrebbe piacere") (Some fiveProducts))
       (loadDesignTokens "post_purchase"))
    = 3.
Proof.
  apply (proj2 (C4_recommendations_first_three
                  (loadDesignTokens "post_purchase")
                  (itemsBlock "recommendations" (Some "Ti potrebbe piacere")
                     (Some fiveProducts))
                  fiveProducts eq_refl)).
  - reflexivity.
  - reflexivity.
  - repeat constructor.
Defined.

(** C10. An items block with at least one item compiles one product
    column per item, with no cap: its columns are the joined columns of
    all the items, and it opens exactly as many product columns as there
    are items, provided the printed texts open no tag themselves. *)
Theorem C10_items_one_column_each (tokens : DesignTokens) (block : Block)
    (its : list Item.t) :
  block.(items) = Some its ->
  its <> [] ->
  itemsComponent block tokens
    = itemsSections tokens block.(title) (join "" (map (itemsColumn tokens) its))
  /\ (plainTokens tokens = true ->
      plain (str block.(title)) = true ->
      Forall (fun it => plainItem it = true) its ->
      occurrences columnTag (itemsComponent block tokens) = List.length its).
Proof.
  intros Hb Hne.
  assert (E : itemsComponent block tokens
              = itemsSections tokens block.(title)
                  (join "" (map (itemsColumn tokens) its))).
  { unfold itemsComponent. rewrite Hb. now rewrite (nonempty_length _ Hne). }
  split; [exact E|]. intros Ht Hti Hits. rewrite E.
  apply itemsSections_columns; [exact Ht | exact Hti |].
  apply tame_join_once.
  eapply Forall_impl; [|exact Hits]. intros it. apply itemsColumn_once, Ht.
Qed.

(** Five items supplied, five product columns compiled. *)
Lemma C10_five_items_five_columns :
  occurrences columnTag
    (itemsComponent
       (itemsBlock "items" (Some "Il tuo carrello") (Some fiveProducts))
       (loadDesignTokens "cart_abandon"))
    = 5.
Proof.
  assert (Hne : fiveProducts <> []) by discriminate.
  apply (proj2 (C10_items_one_column_each
                  (loadDesignTokens "cart_abandon")
                  (itemsBlock "items" (Some "Il tuo carrello") (Some fiveProducts))
                  fiveProducts eq_refl Hne)).
  - reflexivity.
  - reflexivity.
  - repeat constructor.
Defined.

Lemma falsy_prop (v : prop) : v = None \/ v = Some "" -> truthy v = false.
Proof. intros [->| ->]; reflexivity. Qed.

(** C7. A hero block whose [subcopy] is missing or empty compiles with
    the empty string where the subcopy text element would stand, and one
    whose [imageUrl] is missing or empty with the empty string where the
    image element would stand: the optional element is left out, not
    printed empty.  On the compiled text, when the printed texts open no
    tag themselves, the fragment then has a single text element, the
    headline, respectively no image element. *)
Theorem C7_hero_leaves_out_missing_fields (tokens : DesignTokens) (block : Block) :
  (block.(subcopy) = None \/ block.(subcopy) = Some "" ->
   heroComponent block tokens
     = heroSection tokens block.(headline)
         (if truthy block.(imageUrl) then heroImage block tokens else "") ""
   /\ (plainTokens tokens = true -> plainHero block = true ->
       occurrences textTag (heroComponent block tokens) = 1))
  /\ (block.(imageUrl) = None \/ block.(imageUrl) = Some "" ->
      heroComponent block tokens
        = heroSection tokens block.(headline) ""
            (if truthy block.(subcopy) then heroSubcopy block tokens else "")
      /\ (plainTokens tokens = true -> plainHero block = true ->
          occurrences imageTag (heroComponent block tokens) = 0)).
Proof.
  split; intros H; apply falsy_prop in H; (split; [|intros Ht Hb]).
  - unfold heroComponent. cbv zeta. now rewrite H.
  - destruct (heroComponent_texts tokens Ht block Hb) as [_ E]. now rewrite H in E.
  - unfold heroComponent. cbv zeta. now rewrite H.
  - destruct (heroComponent_images tokens Ht block Hb) as [_ E]. now rewrite H in E.
Qed.

(** The hero of the end-to-end scenario: headline only. *)
Lemma C7_headline_only_hero :
  occurrences textTag
    (heroComponent (heroBlock (Some "H") (Some "") (Some "") None)
       (loadDesignTokens "cart_abandon")) = 1
  /\ occurrences imageTag
       (heroComponent (heroBlock (Some "H") (Some "") (Some "") None)
          (loadDesignTokens "cart_abandon")) = 0.
Proof.
  destruct (C7_hero_leaves_out_missing_fields
              (loadDesignTokens "cart_abandon")
              (heroBlock (Some "H") (Some "") (Some "") None)) as [Hs Hi].
  split.
  - apply (proj2 (Hs (or_intror eq_refl))); reflexivity.
  - apply (proj2 (Hi (or_intror eq_refl))); reflexivity.
Defined.

(** *** Strings printed unchanged *)

(** Walks down a concatenation to the attribute value [u] between its
    two double quotes. *)
Ltac find_quoted u :=
  lazymatch goal with
  | |- Includes (dq ++ u ++ dq ++ _) _ => apply Includes_here3
  | |- Includes ((_ ++ _) ++ _) _ => apply Includes_append_r; find_quoted u
  | |- Includes (_ ++ _) _ => apply Includes_skip; find_quoted u
  end.

Lemma truthy_nonempty (u : string) : u <> "" -> truthy (Some u) = true.
Proof. intros H. simpl. apply String.eqb_neq in H. now rewrite H. Qed.







(** The hero component destructures [headline], [subcopy] and
    [imageUrl] only: its result is the same whatever [customHtml]
    holds. *)
Lemma heroComponent_customHtml (b : Block) (t : DesignTokens) (c : prop) :
  heroComponent (withCustomHtml b c) t = heroComponent b t.
Proof. reflexivity. Qed.




(* ================================================================== *)
(** * Part VII. The document and the render request *)
(* ================================================================== *)

Lemma hasType_eq (b : Block) (tag : string) :
  hasType b tag = true -> b.(type) = Some tag.
Proof.
  unfold hasType. destruct b.(type) as [s|]; [|discriminate].
  intros H. apply String.eqb_eq in H. now subst.
Qed.

Lemma fragment_hero (t : DesignTokens) (b : Block) :
  hasType b "hero" = true -> fragment t b = heroComponent b t.
Proof. intros H. unfold fragment, compileBlock. now rewrite H. Qed.

Lemma fragment_footer (t : DesignTokens) (b : Block) :
  hasType b "footer" = true -> fragment t b = footerComponent b t.
Proof.
  intros H. unfold fragment, compileBlock, hasType in *.
  rewrite (hasType_eq b "footer" H). reflexivity.
Qed.

(** C6. The fragments of the blocks are joined in document order: the
    intermediate markup is the envelope around the fragments of the
    blocks joined in the order of the array, so the fragment of a block
    is printed before the fragment of any later block; for a footer block
    followed by a hero block the footer markup comes before the hero
    markup. *)
Theorem C6_fragments_in_document_order (template : Template)
    (l1 l2 l3 : list Block) (a b : Block) :
  template.(blocks) = Some (l1 ++ a :: l2 ++ b :: l3)%list ->
  exists out log,
    generateMJML template = (Return out, log)
    /\ out = envelope (tokensOf template) template.(subject) template.(preheader)
               (join "
" (map (fragment (tokensOf template)) (l1 ++ a :: l2 ++ b :: l3)%list))
    /\ Before out (fragment (tokensOf template) a) (fragment (tokensOf template) b)
    /\ (hasType a "footer" = true -> hasType b "hero" = true ->
        Before out (footerComponent a (tokensOf template))
                   (heroComponent b (tokensOf template))).
Proof.
  intros H. eexists. eexists. split; [apply (generateMJML_eq _ _ H)|].
  split; [reflexivity|].
  assert (HB : Before (markupOf template (l1 ++ a :: l2 ++ b :: l3)%list)
                 (fragment (tokensOf template) a) (fragment (tokensOf template) b)).
  { unfold markupOf. apply envelope_Before.
    rewrite map_app. cbn [map]. rewrite map_app. cbn [map]. apply join_Before. }
  split; [exact HB|]. intros Ha Hb.
  now rewrite <- (fragment_footer _ _ Ha), <- (fragment_hero _ _ Hb).
Qed.

(** A footer block followed by a hero block. *)
Lemma C6_footer_then_hero :
  exists out log,
    generateMJML
      (document "cart_abandon" "S" "P"
         [ footerBlock (Some "L") (Some "pu") (Some "uu");
           heroBlock (Some "H") (Some "") (Some "") None ])
      = (Return out, log)
    /\ Before out
         (footerComponent (footerBlock (Some "L") (Some "pu") (Some "uu"))
            (loadDesignTokens "cart_abandon"))
         (heroComponent (heroBlock (Some "H") (Some "") (Some "") None)
            (loadDesignTokens "cart_abandon")).
Proof.
  destruct (C6_fragments_in_document_order
              (document "cart_abandon" "S" "P"
                 [ footerBlock (Some "L") (Some "pu") (Some "uu");
                   heroBlock (Some "H") (Some "") (Some "") None ])
              [] [] []
              (footerBlock (Some "L") (Some "pu") (Some "uu"))
              (heroBlock (Some "H") (Some "") (Some "") None)
              eq_refl) as [out [log [Hrun [_ [_ Horder]]]]].
  exists out, log. split; [exact Hrun|]. apply Horder; reflexivity.
Defined.

(** C9. A render request whose [templateType] or whose [blocks] is
    missing is answered with status 400 and an error body, whatever the
    MJML compiler would do: nothing is written to the console, the
    compiler is not called, and no render result is built. *)
Theorem C9_missing_field_rejected (mjml : string -> Outcome MjmlResult)
    (body : Template) :
  body.(templateType) = None \/ body.(blocks) = None ->
  postRender mjml body
    = (Return {| status := 400;
                 json := ErrorBody "Missing required fields: templateType, blocks" None |},
       []).
Proof.
  intros H. unfold postRender. cbv zeta.
  destruct H as [H|H]; rewrite H; cbn [truthy negb orb]; [|rewrite orb_true_r];
    reflexivity.
Qed.

(** A request with no [blocks]. *)
Lemma C9_no_blocks_rejected :
  postRender quietMjml
    {| locale := Some "it-IT"; templateType := Some "cart_abandon";
       subject := Some "S"; preheader := Some "P"; blocks := None |}
    = (Return {| status := 400;
                 json := ErrorBody "Missing required fields: templateType, blocks" None |},
       []).
Proof.
  apply (C9_missing_field_rejected quietMjml
           {| locale := Some "it-IT"; templateType := Some "cart_abandon";
              subject := Some "S"; preheader := Some "P"; blocks := None |}).
  right. reflexivity.
Defined.

Lemma fragment_unknown (t : DesignTokens) (b : Block) :
  unknownType b = true -> fragment t b = "".
Proof. intros H. unfold fragment. now rewrite (compileBlock_unknown t b H). Qed.

Lemma blockLog_unknown (t : DesignTokens) (b : Block) :
  unknownType b = true ->
  blockLog t b = [ConsoleWarn ["Unknown block type: " ++ str b.(type)]].
Proof. intros H. unfold blockLog. now rewrite (compileBlock_unknown t b H). Qed.

(** C2, as the code has it. [generateMJML] does not throw on a block
    whose type tag is none of hero, items, recommendations and footer.
    Every such block stands for the empty string among the joined
    fragments and writes exactly one warning to the console, which names
    the tag; a block with a known tag writes nothing; the warnings come
    in document order.  The [warnings] of the response are the issues
    the MJML compiler returned and nothing else. *)
Theorem C2_unknown_tag_warns_on_console (mjml : string -> Outcome MjmlResult)
    (body : Template) (bs : list Block) :
  body.(blocks) = Some bs ->
  generateMJML body
    = (Return (envelope (tokensOf body) body.(subject) body.(preheader)
                 (join "
" (map (fragment (tokensOf body)) bs))),
       flat_map (blockLog (tokensOf body)) bs)
  /\ (forall b, unknownType b = true ->
        fragment (tokensOf body) b = ""
        /\ blockLog (tokensOf body) b
           = [ConsoleWarn ["Unknown block type: " ++ str b.(type)]])
  /\ (forall b, unknownType b = false -> blockLog (tokensOf body) b = [])
  /\ (forall r, truthy body.(templateType) = true ->
        mjml (markupOf body bs) = Return r ->
        exists log,
          postRender mjml body
            = (Return {| status := 200;
                         json := RenderBody (markupOf body bs) r.(html)
                                   (orEmpty r.(errors)) |},
               log)).
Proof.
  intros Hb. split; [exact (generateMJML_eq body bs Hb)|].
  split; [intros b Hu; split;
          [exact (fragment_unknown _ b Hu) | exact (blockLog_unknown _ b Hu)]|].
  split; [intros b Hk; exact (compileBlock_known _ b Hk)|].
  intros r Ht Hr. rewrite (postRender_run mjml body bs Ht Hb), Hr.
  eexists. reflexivity.
Qed.

(** A banner block between a hero and a footer. *)
Lemma C2_banner_warns_on_console :
  generateMJML
    (document "cart_abandon" "S" "P"
       [ heroBlock (Some "H") (Some "") (Some "") None;
         taggedBlock "banner";
         footerBlock (Some "L") (Some "pu") (Some "uu") ])
    = (Return
         (markupOf
            (document "cart_abandon" "S" "P"
               [ heroBlock (Some "H") (Some "") (Some "") None;
                 taggedBlock "banner";
                 footerBlock (Some "L") (Some "pu") (Some "uu") ])
            [ heroBlock (Some "H") (Some "") (Some "") None;
              taggedBlock "banner";
              footerBlock (Some "L") (Some "pu") (Some "uu") ]),
       [ConsoleWarn ["Unknown block type: banner"]])
  /\ fragment (loadDesignTokens "cart_abandon") (taggedBlock "banner") = "".
Proof.
  destruct (C2_unknown_tag_warns_on_console quietMjml
              (document "cart_abandon" "S" "P"
                 [ heroBlock (Some "H") (Some "") (Some "") None;
                   taggedBlock "banner";
                   footerBlock (Some "L") (Some "pu") (Some "uu") ])
              [ heroBlock (Some "H") (Some "") (Some "") None;
                taggedBlock "banner";
                footerBlock (Some "L") (Some "pu") (Some "uu") ]
              eq_refl) as [Hrun [Hunknown _]].
  split; [exact Hrun|].
  exact (proj1 (Hunknown (taggedBlock "banner") eq_refl)).
Defined.

(** *** The warnings of the response cannot name every tag *)

Lemma longTag_unknown (ws : list string) : ~ In (longTag ws) knownTags.
Proof.
  unfold knownTags. simpl.
  intros [H|[H|[H|[H|[]]]]]; apply (f_equal String.length) in H;
    unfold longTag in H; rewrite length_replicate in H; simpl in H; lia.
Qed.

Lemma longTag_longer (ws : list string) (w : string) :
  In w ws -> String.length w < String.length (longTag ws).
Proof.
  intros H. unfold longTag. rewrite length_replicate.
  assert (Hmax : Forall (fun k => k <= list_max (map String.length ws))
                   (map String.length ws)).
  { apply list_max_le. lia. }
  rewrite Forall_forall in Hmax.
  specialize (Hmax (String.length w) (in_map _ _ _ H)). lia.
Qed.

Lemma no_warning_names_longTag (ws : list string) :
  filter (fun w => includes w (longTag ws)) ws = [].
Proof.
  assert (H : forall l, (forall w, In w l -> In w ws) ->
                        filter (fun w => includes w (longTag ws)) l = []).
  { induction l as [|w l IH]; intros Hl; [reflexivity|]. cbn [filter].
    rewrite (includes_longer w (longTag ws)).
    - apply IH. intros x Hx. apply Hl. now right.
    - apply longTag_longer, Hl. now left. }
  apply H. auto.
Qed.

(** The markup of a document that holds one block with an unknown tag
    does not depend on the tag. *)
Lemma markupOf_lone_unknown (tag : string) :
  ~ In tag knownTags ->
  markupOf (loneBlock tag) [taggedBlock tag]
    = markupOf (loneBlock "banner") [taggedBlock "banner"].
Proof.
  intros H. unfold markupOf. cbn [map].
  rewrite (fragment_unknown _ (taggedBlock tag)
             (unknownType_tag (taggedBlock tag) tag eq_refl H)).
  reflexivity.
Qed.

(** C2 as stated fails whatever the MJML compiler does: the markup it
    is given is the same for every unknown tag, so its issues cannot
    name every unknown tag, and they are all the response has for
    warnings.
    With a compiler that reports no issue, a request with a lone banner
    block is answered with no warning at all, the warning being on the
    console. *)
Lemma C2_response_does_not_name_tag :
  (~ exists mjml, UnknownTagLawOnResponse mjml)
  /\ exists m h log,
       postRender quietMjml (loneBlock "banner")
         = (Return {| status := 200; json := RenderBody m h [] |}, log)
       /\ In (ConsoleWarn ["Unknown block type: banner"]) log.
Proof.
  split.
  - intros [mjml Law].
    destruct (mjml (markupOf (loneBlock "banner") [taggedBlock "banner"]))
      as [r|e] eqn:E.
    + set (tag := longTag (orEmpty r.(errors))).
      assert (Hu : ~ In tag knownTags) by apply longTag_unknown.
      destruct (Law (loneBlock tag) [taggedBlock tag] (taggedBlock tag) tag
                  eq_refl eq_refl (or_introl eq_refl) eq_refl Hu)
        as [m [h [ws [log [Hrun [Hone _]]]]]].
      rewrite (postRender_run mjml (loneBlock tag) [taggedBlock tag] eq_refl eq_refl)
        in Hrun.
      rewrite (markupOf_lone_unknown tag Hu), E in Hrun.
      injection Hrun as _ _ Hws _. subst ws.
      unfold tag in Hone. rewrite no_warning_names_longTag in Hone.
      discriminate Hone.
    + assert (Hu : ~ In "banner" knownTags).
      { simpl. intros [H|[H|[H|[H|[]]]]]; discriminate H. }
      destruct (Law (loneBlock "banner") [taggedBlock "banner"]
                  (taggedBlock "banner") "banner"
                  eq_refl eq_refl (or_introl eq_refl) eq_refl Hu)
        as [m [h [ws [log [Hrun _]]]]].
      rewrite (postRender_run mjml (loneBlock "banner") [taggedBlock "banner"]
                 eq_refl eq_refl), E in Hrun.
      discriminate Hrun.
  - eexists. eexists. eexists. split; [vm_compute; reflexivity|].
    simpl. tauto.
Qed.

(* ================================================================== *)
(** * Part VIII. More of the renderer service *)
(* ================================================================== *)

(** *** The render handler, case by case *)

Lemma mjmlCalls_app (l1 l2 : list Effect) :
  mjmlCalls (l1 ++ l2) = mjmlCalls l1 + mjmlCalls l2.
Proof. unfold mjmlCalls. now rewrite filter_app, length_app. Qed.

Lemma mapColumns_null (column : Item.t -> string) (l : list (option Item.t)) :
  hasNull l = true ->
  Raw.mapColumns column l
    = Throw "Cannot read properties of null (reading 'imageUrl')".
Proof.
  induction l as [|[i|] l IH]; cbn [hasNull existsb Raw.mapColumns orb].
  - discriminate.
  - intros H. fold (hasNull l) in H. now rewrite (IH H).
  - reflexivity.
Qed.

Lemma mapColumns_objects (column : Item.t -> string) (l : list (option Item.t)) :
  hasNull l = false -> exists columns, Raw.mapColumns column l = Return columns.
Proof.
  induction l as [|[i|] l IH]; cbn [hasNull existsb Raw.mapColumns orb].
  - intros _. now exists [].
  - intros H. fold (hasNull l) in H. destruct (IH H) as [cs ->]. now eexists.
  - discriminate.
Qed.

Lemma mapColumns_Some (column : Item.t -> string) (l : list Item.t) :
  Raw.mapColumns column (map Some l) = Return (map column l).
Proof.
  induction l as [|i l IH]; [reflexivity|].
  cbn [map Raw.mapColumns]. now rewrite IH.
Qed.

(** A block that reads a property of [null] throws before it writes
    anything. *)
Lemma compileBlock_null (t : DesignTokens) (b : option Json.Block) :
  readsNull b = true -> exists e, Raw.compileBlock t b = (Throw e, []).
Proof.
  destruct b as [b|]; [|intros _; now eexists].
  unfold readsNull, Raw.compileBlock.
  destruct (Raw.hasType b "hero"); [discriminate|].
  destruct (Raw.hasType b "items").
  - unfold Raw.itemsComponent. cbv zeta.
    destruct (Json.items b) as [l|]; [|discriminate].
    intros H. rewrite (mapColumns_null _ l H).
    destruct l; [discriminate H|]. cbn [List.length Nat.eqb]. now eexists.
  - destruct (Raw.hasType b "recommendations"); [|destruct (Raw.hasType b "footer"); discriminate].
    unfold Raw.recommendationsComponent. cbv zeta.
    destruct (Json.items b) as [l|]; [|discriminate].
    intros H. rewrite (mapColumns_null _ _ H).
    destruct l; [discriminate H|]. cbn [List.length Nat.eqb]. now eexists.
Qed.

(** Any other block returns a fragment and never calls the compiler. *)
Lemma compileBlock_objects (t : DesignTokens) (b : option Json.Block) :
  readsNull b = false ->
  exists s w, Raw.compileBlock t b = (Return s, w) /\ mjmlCalls w = 0.
Proof.
  destruct b as [b|]; [|discriminate].
  unfold readsNull, Raw.compileBlock.
  destruct (Raw.hasType b "hero"); [intros _; eexists; eexists; split; reflexivity|].
  destruct (Raw.hasType b "items").
  - unfold Raw.itemsComponent. cbv zeta.
    destruct (Json.items b) as [l|]; [|intros _; eexists; eexists; split; reflexivity].
    intros H. destruct (mapColumns_objects (itemsColumn t) l H) as [cs ->].
    destruct (Nat.eqb (List.length l) 0); eexists; eexists; split; reflexivity.
  - destruct (Raw.hasType b "recommendations").
    + unfold Raw.recommendationsComponent. cbv zeta.
      destruct (Json.items b) as [l|]; [|intros _; eexists; eexists; split; reflexivity].
      intros H. destruct (mapColumns_objects (recommendationsColumn t) _ H) as [cs ->].
      destruct (Nat.eqb (List.length l) 0); eexists; eexists; split; reflexivity.
    + intros _. destruct (Raw.hasType b "footer"); eexists; eexists; split; reflexivity.
Qed.

Lemma mapM_null (t : DesignTokens) (bs : list (option Json.Block)) :
  existsb readsNull bs = true ->
  exists e w, mapM (Raw.compileBlock t) bs = (Throw e, w) /\ mjmlCalls w = 0.
Proof.
  induction bs as [|b bs IH]; [discriminate|].
  cbn [existsb mapM]. destruct (readsNull b) eqn:E.
  - intros _. destruct (compileBlock_null t b E) as [e ->].
    exists e, []. split; reflexivity.
  - cbn [orb]. intros H. destruct (IH H) as [e [w [-> Hw]]].
    destruct (compileBlock_objects t b E) as [s [w0 [-> Hw0]]].
    exists e, (w0 ++ w)%list. split; [reflexivity|].
    rewrite mjmlCalls_app. lia.
Qed.

Lemma mapM_objects (t : DesignTokens) (bs : list (option Json.Block)) :
  existsb readsNull bs = false ->
  exists fs w, mapM (Raw.compileBlock t) bs = (Return fs, w) /\ mjmlCalls w = 0.
Proof.
  induction bs as [|b bs IH]; [intros _; exists [], []; split; reflexivity|].
  cbn [existsb mapM]. destruct (readsNull b) eqn:E; [discriminate|].
  cbn [orb]. intros H. destruct (IH H) as [fs [w [-> Hw]]].
  destruct (compileBlock_objects t b E) as [s [w0 [-> Hw0]]].
  exists (s :: fs), (w0 ++ w ++ [])%list. split; [reflexivity|].
  rewrite app_nil_r, mjmlCalls_app. lia.
Qed.

(** [generateMJML] throws exactly when some block reads a property of
    [null]; its console output never holds a call of the compiler. *)
Lemma generateMJML_null (template : Json.Template) (bs : list (option Json.Block)) :
  template.(Json.blocks) = Some bs ->
  existsb readsNull bs = true ->
  exists e w, Raw.generateMJML template = (Throw e, w) /\ mjmlCalls w = 0.
Proof.
  intros Hb H. unfold Raw.generateMJML. cbv zeta. rewrite Hb.
  destruct (mapM_null (loadDesignTokens (str (Json.templateType template))) bs H)
    as [e [w [-> Hw]]].
  exists e, w. split; [reflexivity | exact Hw].
Qed.

Lemma generateMJML_objects (template : Json.Template) (bs : list (option Json.Block)) :
  template.(Json.blocks) = Some bs ->
  existsb readsNull bs = false ->
  exists m w, Raw.generateMJML template = (Return m, w) /\ mjmlCalls w = 0.
Proof.
  intros Hb H. unfold Raw.generateMJML. cbv zeta. rewrite Hb.
  destruct (mapM_objects (loadDesignTokens (str (Json.templateType template))) bs H)
    as [fs [w [-> Hw]]].
  eexists. exists (w ++ [])%list. split; [reflexivity|].
  now rewrite app_nil_r.
Qed.

Lemma rawRender_rejects (mjml : string -> Outcome MjmlResult) (body : Json.Template) :
  truthy body.(Json.templateType) = false \/ body.(Json.blocks) = None ->
  Raw.postRender mjml body
    = (Return {| status := 400;
                 json := ErrorBody "Missing required fields: templateType, blocks" None |},
       []).
Proof.
  intros H. unfold Raw.postRender. cbv zeta.
  destruct H as [H|H]; rewrite H; cbn [negb orb]; [|rewrite orb_true_r];
    reflexivity.
Qed.

(** What the handler does once both required fields are there. *)
Lemma rawRender_run (mjml : string -> Outcome MjmlResult) (body : Json.Template)
    (bs : list (option Json.Block)) :
  truthy body.(Json.templateType) = true ->
  body.(Json.blocks) = Some bs ->
  Raw.postRender mjml body =
    match Raw.generateMJML body with
    | (Throw e, w) =>
        (Return {| status := 500;
                   json := ErrorBody "Failed to render template" (Some e) |},
         w ++ [ConsoleError ["Render error:"; e]])%list
    | (Return m, w) =>
        match mjml m with
        | Return r =>
            (Return {| status := 200;
                       json := RenderBody m r.(html) (orEmpty r.(errors)) |},
             w ++ MjmlCall m
                  :: match r.(errors) with
                     | Some (e :: es) =>
                         [ConsoleWarn ("MJML compilation warnings:" :: e :: es)]
                     | _ => []
                     end)%list
        | Throw e =>
            (Return {| status := 500;
                       json := ErrorBody "Failed to render template" (Some e) |},
             w ++ [MjmlCall m; ConsoleError ["Render error:"; e]])%list
        end
    end.
Proof.
  intros Ht Hb. destruct body as [loc tt subj pre blks]. simpl in Ht, Hb. subst blks.
  unfold Raw.postRender. cbv zeta.
  cbn [Json.locale Json.templateType Json.subject Json.preheader Json.blocks].
  rewrite Ht. cbn [negb orb].
  destruct (Raw.generateMJML _) as [[m|e] w].
  - unfold bind at 1. unfold callMjml. unfold bind at 1.
    destruct (mjml m) as [r|e].
    + destruct r as [h errs]. cbn [errors html].
      destruct errs as [[|e es]|]; unfold bind, tell, ret, tryCatch; cbn [orEmpty];
        rewrite ?app_nil_r, <- ?app_assoc; reflexivity.
    + unfold tryCatch, bind, tell, ret. now rewrite <- app_assoc.
  - unfold bind at 1. unfold tryCatch, bind, tell, ret. reflexivity.
Qed.

Lemma required_json_fields (body : Json.Template) :
  (truthy body.(Json.templateType) = false \/ body.(Json.blocks) = None)
  \/ (truthy body.(Json.templateType) = true
      /\ exists bs, body.(Json.blocks) = Some bs).
Proof.
  destruct (truthy body.(Json.templateType)); [|left; now left].
  destruct body.(Json.blocks) as [bs|];
    [right; split; [reflexivity | now exists bs] | left; now right].
Qed.

(** On a body without [null] the handler is the one of Part I. *)
Lemma hasType_ofBlock (b : Block) (tag : string) :
  Raw.hasType (ofBlock b) tag = hasType b tag.
Proof. reflexivity. Qed.

Lemma itemsComponent_ofBlock (b : Block) (t : DesignTokens) :
  Raw.itemsComponent (ofBlock b) t = Return (itemsComponent b t).
Proof.
  unfold Raw.itemsComponent, itemsComponent, ofBlock. cbv zeta.
  cbn [Json.items Json.title].
  destruct (items b) as [l|]; cbn [option_map]; [|reflexivity].
  rewrite length_map, mapColumns_Some.
  destruct (Nat.eqb (List.length l) 0); reflexivity.
Qed.

Lemma recommendationsComponent_ofBlock (b : Block) (t : DesignTokens) :
  Raw.recommendationsComponent (ofBlock b) t = Return (recommendationsComponent b t).
Proof.
  unfold Raw.recommendationsComponent, recommendationsComponent, ofBlock. cbv zeta.
  cbn [Json.items Json.title].
  destruct (items b) as [l|]; cbn [option_map]; [|reflexivity].
  rewrite length_map, firstn_map, mapColumns_Some.
  destruct (Nat.eqb (List.length l) 0); reflexivity.
Qed.

Lemma compileBlock_ofBlock (t : DesignTokens) (b : Block) :
  Raw.compileBlock t (Some (ofBlock b)) = compileBlock t b.
Proof.
  unfold Raw.compileBlock, compileBlock.
  rewrite !hasType_ofBlock, itemsComponent_ofBlock, recommendationsComponent_ofBlock.
  destruct (hasType b "hero"); [destruct b; reflexivity|].
  destruct (hasType b "items"); [reflexivity|].
  destruct (hasType b "recommendations"); [reflexivity|].
  destruct (hasType b "footer"); [destruct b; reflexivity | reflexivity].
Qed.

Lemma mapM_ofBlock (t : DesignTokens) (bs : list Block) :
  mapM (Raw.compileBlock t) (map (fun b => Some (ofBlock b)) bs)
    = mapM (compileBlock t) bs.
Proof.
  induction bs as [|b bs IH]; [reflexivity|].
  cbn [map mapM]. now rewrite compileBlock_ofBlock, IH.
Qed.

Lemma generateMJML_ofTemplate (template : Template) :
  Raw.generateMJML (ofTemplate template) = generateMJML template.
Proof.
  destruct template as [l ty s p [bs|]]; [|reflexivity].
  unfold Raw.generateMJML, generateMJML, ofTemplate. cbv zeta.
  cbn [Json.locale Json.templateType Json.subject Json.preheader Json.blocks
       locale templateType subject preheader blocks option_map].
  now rewrite mapM_ofBlock.
Qed.

Lemma postRender_ofTemplate (mjml : string -> Outcome MjmlResult)
    (body : Template) :
  Raw.postRender mjml (ofTemplate body) = postRender mjml body.
Proof.
  destruct body as [l ty s p [bs|]]; [|reflexivity].
  pose proof (generateMJML_ofTemplate
                {| locale := l; templateType := ty; subject := s;
                   preheader := p; blocks := Some bs |}) as E.
  unfold ofTemplate in E.
  cbn [locale templateType subject preheader blocks option_map] in E.
  unfold Raw.postRender, postRender, ofTemplate. cbv zeta.
  cbn [Json.locale Json.templateType Json.subject Json.preheader Json.blocks
       locale templateType subject preheader blocks option_map].
  now rewrite E.
Qed.

Lemma readsNull_ofBlock (bs : list Block) :
  existsb readsNull (map (fun b => Some (ofBlock b)) bs) = false.
Proof.
  induction bs as [|b bs IH]; [reflexivity|].
  cbn [map existsb]. rewrite IH, orb_false_r.
  unfold readsNull. rewrite !hasType_ofBlock. unfold ofBlock. cbn [Json.items].
  assert (H : forall l : list Item.t, hasNull (map Some l) = false).
  { induction l as [|i l IHl]; [reflexivity | exact IHl]. }
  destruct (hasType b "hero"); [reflexivity|].
  destruct (hasType b "items").
  - destruct (items b) as [l|]; [apply H | reflexivity].
  - destruct (hasType b "recommendations"); [|reflexivity].
    destruct (items b) as [l|]; [|reflexivity].
    cbn [option_map]. rewrite firstn_map. apply H.
Qed.

Lemma generateMJML_throws (body : Json.Template) (bs : list (option Json.Block)) :
  body.(Json.blocks) = Some bs ->
  (exists e w, Raw.generateMJML body = (Throw e, w))
  <-> existsb readsNull bs = true.
Proof.
  intros Hb. split.
  - intros [e [w H]]. destruct (existsb readsNull bs) eqn:E; [reflexivity|].
    destruct (generateMJML_objects body bs Hb E) as [m [w' [H' _]]]. congruence.
  - intros E. destruct (generateMJML_null body bs Hb E) as [e [w [H _]]].
    now exists e, w.
Qed.

(** X1. For a body in which [blocks] and every [items] are arrays of
    objects or [null], the render handler never lets an exception out
    and answers with one of three statuses: 400 when [templateType] is
    missing or empty or [blocks] is missing; 500 when both are there and
    either some block makes the generator read a property of [null] (a
    [null] block, a [null] item of an items block, a [null] among the
    first three items of a recommendations block) or the generator
    returns and the MJML compiler throws; 200 when both are there, no
    block reads a property of [null] and the compiler returns.  Only a
    200 answer carries a render result, and the generator throws exactly
    when some block reads a property of [null]. *)
Theorem X1_postRender_classifies (mjml : string -> Outcome MjmlResult)
    (body : Json.Template) :
  exists resp log,
    Raw.postRender mjml body = (Return resp, log)
    /\ (resp.(status) = 400 <->
        (truthy body.(Json.templateType) = false \/ body.(Json.blocks) = None))
    /\ (resp.(status) = 500 <->
        (truthy body.(Json.templateType) = true
         /\ exists bs, body.(Json.blocks) = Some bs
              /\ (existsb readsNull bs = true
                  \/ exists m w e, Raw.generateMJML body = (Return m, w)
                                   /\ mjml m = Throw e)))
    /\ (resp.(status) = 200 <->
        (truthy body.(Json.templateType) = true
         /\ exists bs m w r, body.(Json.blocks) = Some bs
              /\ existsb readsNull bs = false
              /\ Raw.generateMJML body = (Return m, w)
              /\ mjml m = Return r))
    /\ (resp.(status) = 200 <->
        exists m h ws, resp.(json) = RenderBody m h ws)
    /\ (forall bs, body.(Json.blocks) = Some bs ->
          ((exists e w, Raw.generateMJML body = (Throw e, w))
           <-> existsb readsNull bs = true)).
Proof.
  destruct (required_json_fields body) as [Hrej | [Ht [bs Hb]]].
  - rewrite (rawRender_rejects mjml body Hrej). eexists. eexists.
    split; [reflexivity|]. cbn [status json].
    split; [split; [intros _; exact Hrej | reflexivity]|].
    split; [split; [discriminate|];
            intros [Ht [bs [Hb _]]]; destruct Hrej; congruence|].
    split; [split; [discriminate|];
            intros [Ht [bs [m [w [r [Hb _]]]]]]; destruct Hrej; congruence|].
    split; [split; [discriminate | intros [m [h [ws H]]]; discriminate H]|].
    exact (generateMJML_throws body).
  - pose proof (rawRender_run mjml body bs Ht Hb) as Hrun.
    destruct (existsb readsNull bs) eqn:E.
    + destruct (generateMJML_null body bs Hb E) as [e [w [Hg _]]].
      rewrite Hg in Hrun. rewrite Hrun.
      eexists. eexists. split; [reflexivity|]. cbn [status json].
      split; [split; [discriminate | intros [H|H]; congruence]|].
      split; [split; [intros _; split; [exact Ht|]; exists bs; split; [exact Hb|]; now left
                     | reflexivity]|].
      split; [split; [discriminate|];
              intros [_ [bs' [m [w' [r [Hb' [E' _]]]]]]]; congruence|].
      split; [split; [discriminate | intros [m [h [ws H]]]; discriminate H]|].
      exact (generateMJML_throws body).
    + destruct (generateMJML_objects body bs Hb E) as [m [w [Hg _]]].
      rewrite Hg in Hrun.
      destruct (mjml m) as [r|e] eqn:Em; rewrite Hrun.
      * eexists. eexists. split; [reflexivity|]. cbn [status json].
        split; [split; [discriminate | intros [H|H]; congruence]|].
        split; [split; [discriminate|];
                intros [_ [bs' [Hb' [E'|[m' [w' [e [Hg' Hm]]]]]]]]; congruence|].
        split; [split; [|reflexivity]; intros _; split; [exact Ht|];
                exists bs, m, w, r; repeat split; assumption|].
        split; [split; [intros _; now eexists; eexists; eexists | reflexivity]|].
        exact (generateMJML_throws body).
      * eexists. eexists. split; [reflexivity|]. cbn [status json].
        split; [split; [discriminate | intros [H|H]; congruence]|].
        split; [split; [|reflexivity]; intros _; split; [exact Ht|];
                exists bs; split; [exact Hb|]; right; now exists m, w, e|].
        split; [split; [discriminate|];
                intros [_ [bs' [m' [w' [r [Hb' [_ [Hg' Hm]]]]]]]]; congruence|].
        split; [split; [discriminate | intros [m' [h [ws H]]]; discriminate H]|].
        exact (generateMJML_throws body).
Qed.

(** The request [{ templateType: 'cart_abandon', blocks: [{ type:
    'items', items: [null] }] }] passes the check of the required fields
    and is answered 500. *)
Lemma X1_null_item_answered_500 :
  exists resp log,
    Raw.postRender quietMjml nullItemBody = (Return resp, log)
    /\ resp.(status) = 500.
Proof.
  destruct (X1_postRender_classifies quietMjml nullItemBody)
    as [resp [log [Hrun [_ [H500 _]]]]].
  exists resp, log. split; [exact Hrun|].
  apply H500. split; [reflexivity|].
  eexists. split; [reflexivity|]. left. reflexivity.
Defined.

(** X2. Once both required fields are there, a body in which [blocks]
    and every [items] are arrays of objects or [null] makes the handler
    call the MJML compiler exactly once when no block reads a property
    of [null], and not at all, answering 500, when one does.  The one
    call comes after the console output of the generator and is on
    exactly the markup the answer returns as [mjml]; the [html] and the
    [warnings] of the answer are what that call returned, a missing list
    of issues being the empty list, and the issues are written to the
    console exactly when there are some. *)
Theorem X2_postRender_lowers_once (mjml : string -> Outcome MjmlResult)
    (body : Json.Template) (bs : list (option Json.Block)) :
  truthy body.(Json.templateType) = true ->
  body.(Json.blocks) = Some bs ->
  exists resp log,
    Raw.postRender mjml body = (Return resp, log)
    /\ mjmlCalls log = (if existsb readsNull bs then 0 else 1)
    /\ (existsb readsNull bs = true ->
        exists message,
          resp = {| status := 500;
                    json := ErrorBody "Failed to render template" (Some message) |})
    /\ (existsb readsNull bs = false ->
        exists m w rest,
          Raw.generateMJML body = (Return m, w)
          /\ log = (w ++ MjmlCall m :: rest)%list
          /\ (forall m' h ws,
                resp.(json) = RenderBody m' h ws ->
                m' = m
                /\ exists r, mjml m = Return r /\ h = r.(html)
                             /\ ws = orEmpty r.(errors)
                             /\ (rest = [] <-> ws = [])
                             /\ (ws <> [] ->
                                 rest = [ConsoleWarn ("MJML compilation warnings:" :: ws)]))).
Proof.
  intros Ht Hb. rewrite (rawRender_run mjml body bs Ht Hb).
  destruct (existsb readsNull bs) eqn:E.
  - destruct (generateMJML_null body bs Hb E) as [e [w [Hg Hw]]]. rewrite Hg.
    eexists. eexists. split; [reflexivity|].
    split; [rewrite mjmlCalls_app, Hw; reflexivity|].
    split; [intros _; now exists e | discriminate].
  - destruct (generateMJML_objects body bs Hb E) as [m [w [Hg Hw]]]. rewrite Hg.
    destruct (mjml m) as [r|e] eqn:Em.
    + eexists. eexists. split; [reflexivity|].
      split; [rewrite mjmlCalls_app, Hw; destruct (errors r) as [[|x xs]|]; reflexivity|].
      split; [discriminate|]. intros _. exists m, w. eexists.
      split; [reflexivity|]. split; [reflexivity|].
      cbn [json]. intros m' h ws H. injection H as <- <- <-.
      split; [reflexivity|]. exists r. split; [exact Em|].
      split; [reflexivity|]. split; [reflexivity|].
      destruct (errors r) as [[|x xs]|]; cbn [orEmpty];
        (split; [split; intros H; (reflexivity || discriminate H)|]);
        intros H; (reflexivity || (exfalso; now apply H)).
    + eexists. eexists. split; [reflexivity|].
      split; [rewrite mjmlCalls_app, Hw; reflexivity|].
      split; [discriminate|]. intros _. exists m, w. eexists.
      split; [reflexivity|]. split; [reflexivity|].
      cbn [json]. intros m' h ws H. discriminate H.
Qed.

(** A [null] item is answered 500 with the compiler never entered; a
    lone block with an unknown tag is lowered once. *)
Lemma X2_null_item_not_lowered :
  (exists resp log,
     Raw.postRender quietMjml nullItemBody = (Return resp, log)
     /\ mjmlCalls log = 0
     /\ resp.(status) = 500)
  /\ (exists resp log,
        Raw.postRender quietMjml (ofTemplate (loneBlock "banner")) = (Return resp, log)
        /\ mjmlCalls log = 1).
Proof.
  split.
  - destruct (X2_postRender_lowers_once quietMjml nullItemBody _ eq_refl eq_refl)
      as [resp [log [Hrun [Hcalls [Hnull _]]]]].
    exists resp, log. split; [exact Hrun|]. split; [exact Hcalls|].
    destruct (Hnull eq_refl) as [message ->]. reflexivity.
  - destruct (X2_postRender_lowers_once quietMjml (ofTemplate (loneBlock "banner"))
                _ eq_refl eq_refl)
      as [resp [log [Hrun [Hcalls _]]]].
    exists resp, log. split; [exact Hrun | exact Hcalls].
Defined.

(** *** The compile handler *)

(** X3. The compile handler never lets an exception out either: a
    missing or empty [mjml] is answered 400 without any effect, any other
    source goes to the MJML compiler exactly once and unchanged, and the
    answer is 200 with the compiler's markup and issues, or 500 with the
    message of what the compiler threw.  Unlike the render handler it
    never writes the compiler's issues to the console. *)
Theorem X3_postCompile_classifies (compiler : string -> Outcome MjmlResult)
    (body : Compile.Request) :
  (truthy body.(Compile.mjml) = false /\
   postCompile compiler body
     = (Return {| Compile.status := 400;
                  Compile.json := Compile.Failure "Missing MJML content" None |},
        []))
  \/ (exists source r,
        body.(Compile.mjml) = Some source /\ source <> ""
        /\ compiler source = Return r
        /\ postCompile compiler body
           = (Return {| Compile.status := 200;
                        Compile.json :=
                          Compile.Compiled r.(html) (orEmpty r.(errors)) |},
              [MjmlCall source]))
  \/ (exists source e,
        body.(Compile.mjml) = Some source /\ source <> ""
        /\ compiler source = Throw e
        /\ postCompile compiler body
           = (Return {| Compile.status := 500;
                        Compile.json :=
                          Compile.Failure "Failed to compile MJML" (Some e) |},
              [MjmlCall source; ConsoleError ["Compilation error:"; e]])).
Proof.
  destruct body as [[source|]].
  - destruct (String.eqb_spec source "") as [->|Hne].
    + left. split; reflexivity.
    + right. assert (Ht : truthy (Some source) = true) by now apply truthy_nonempty.
      unfold postCompile. cbv zeta. cbn [Compile.mjml]. rewrite Ht. cbn [negb str].
      unfold callMjml. destruct (compiler source) as [r|e] eqn:E.
      * left. exists source, r. repeat split; assumption.
      * right. exists source, e. repeat split; assumption.
  - left. split; reflexivity.
Qed.

(** *** The envelope *)

Lemma envelope_pieces (t : DesignTokens) (subject preheader : prop)
    (mjmlBlocks : string) :
  envelope t subject preheader mjmlBlocks
    = join "" (envelopePieces t subject preheader mjmlBlocks).
Proof.
  unfold envelope. trim_template.
  unfold envelopePieces, join, titleElement, previewElement, headDefaults, bodyOpen.
  cbn [String.concat]. rewrite !append_assoc. reflexivity.
Qed.

(** *** Counting over joins *)

Module StrMore.

Lemma tame_join_each {A : Type} (p : string) (f : A -> string) (k : nat)
    (l : list A) :
  Forall (fun a => Tame p (f a) k) l ->
  Tame p (join "" (map f l)) (k * List.length l).
Proof.
  intros H. induction H as [|a l Ha Hl IH].
  - rewrite Nat.mul_0_r. split; reflexivity.
  - cbn [map]. rewrite join_empty_cons. cbn [List.length].
    replace (k * S (List.length l)) with (k + k * List.length l) by lia.
    now apply tame_append.
Qed.

Lemma tame_join_sum {A : Type} (p sep : string) (f : A -> string)
    (g : A -> nat) (l : list A) :
  Tame p sep 0 ->
  (forall a, In a l -> Tame p (f a) (g a)) ->
  Tame p (join sep (map f l)) (list_sum (map g l)).
Proof.
  intros Hsep H. induction l as [|a l IH]; [split; reflexivity|].
  destruct l as [|b l].
  - cbn. rewrite Nat.add_0_r. apply H. now left.
  - change (map f (a :: b :: l)) with (f a :: f b :: map f l).
    rewrite join_cons.
    change (list_sum (map g (a :: b :: l)))
      with (g a + (0 + list_sum (map g (b :: l)))).
    apply tame_append; [apply H; now left|].
    apply tame_append; [exact Hsep|].
    apply IH. intros x Hx. apply H. now right.
Qed.

Lemma tame_empty (p : string) : Tame p "" 0.
Proof. split; reflexivity. Qed.

Lemma Includes_refl (s : string) : Includes s s.
Proof. exists "", "". simpl. now rewrite append_empty_r. Qed.

(** What is in an earlier element of a joined array is printed before
    what is in a later one. *)
Lemma join_Before_in (sep p q a b : string) (l1 l2 l3 : list string) :
  Includes a p -> Includes b q ->
  Before (join sep (l1 ++ a :: l2 ++ b :: l3)) p q.
Proof.
  intros [a1 [a2 ->]] [b1 [b2 ->]].
  destruct (join_Before sep (a1 ++ p ++ a2) (b1 ++ q ++ b2) l1 l2 l3)
    as [x [y [z ->]]].
  exists (x ++ a1), (a2 ++ y ++ b1), (b2 ++ z). now rewrite !append_assoc.
Qed.

Lemma join_Before_nth (sep p q a b : string) (l : list string) (i j : nat) :
  nth_error l i = Some a -> nth_error l j = Some b -> i < j ->
  Includes a p -> Includes b q ->
  Before (join sep l) p q.
Proof.
  intros Hi Hj Hlt Hp Hq.
  destruct (nth_error_split l i Hi) as [l1 [l2 [-> Hlen]]].
  rewrite nth_error_app2 in Hj by lia.
  replace (j - List.length l1) with (S (j - i - 1)) in Hj by lia.
  cbn [nth_error] in Hj.
  destruct (nth_error_split l2 _ Hj) as [l3 [l4 [-> _]]].
  now apply join_Before_in.
Qed.

End StrMore.

Import StrMore.

(** *** The envelope, continued *)

(** X4. The document envelope has a fixed order whatever the blocks:
    the title element with the subject, the preview element with the
    preheader, the end of the head, the opening of the body, each block
    fragment, the end of the body.  The subject and the preheader are
    printed unchanged, and a missing one is printed as the text
    [undefined] rather than refused. *)
Theorem X4_envelope_order (template : Template) (bs : list Block) :
  template.(blocks) = Some bs ->
  exists out log,
    generateMJML template = (Return out, log)
    /\ out = join "" (envelopePieces (tokensOf template) template.(subject)
                        template.(preheader)
                        (join "
" (map (fragment (tokensOf template)) bs)))
    /\ Before out (titleElement template.(subject))
                  (previewElement template.(preheader))
    /\ Before out (previewElement template.(preheader)) "</mj-head>"
    /\ Before out "</mj-head>" (bodyOpen (tokensOf template))
    /\ (forall b, In b bs ->
          Before out (bodyOpen (tokensOf template)) (fragment (tokensOf template) b)
          /\ Before out (fragment (tokensOf template) b) "</mj-body>")
    /\ (template.(subject) = None -> Includes out "<mj-title>undefined</mj-title>")
    /\ (template.(preheader) = None ->
        Includes out "<mj-preview>undefined</mj-preview>").
Proof.
  intros Hb. rewrite (generateMJML_eq template bs Hb). eexists. eexists.
  split; [reflexivity|]. unfold markupOf. rewrite envelope_pieces.
  split; [reflexivity|].
  set (body := join _ (map _ bs)).
  split; [eapply (join_Before_nth "" _ _ _ _ _ 1 3);
      [reflexivity | reflexivity | lia | apply Includes_refl | apply Includes_refl]|].
  split; [eapply (join_Before_nth "" _ _ _ _ _ 3 5);
      [reflexivity | reflexivity | lia | apply Includes_refl | apply Includes_refl]|].
  split; [eapply (join_Before_nth "" _ _ _ _ _ 5 7);
      [reflexivity | reflexivity | lia | apply Includes_refl | apply Includes_refl]|].
  split.
  { intros b Hin.
    assert (Hf : Includes body (fragment (tokensOf template) b)).
    { apply join_Includes, in_map, Hin. }
    split.
    - eapply (join_Before_nth "" _ _ _ _ _ 7 9);
      [reflexivity | reflexivity | lia | apply Includes_refl | exact Hf].
    - eapply (join_Before_nth "" _ _ _ _ _ 9 11);
      [reflexivity | reflexivity | lia | exact Hf | apply Includes_refl]. }
  split; intros H; rewrite H.
  - apply (join_Includes "" (titleElement None)). simpl. tauto.
  - apply (join_Includes "" (previewElement None)). simpl. tauto.
Qed.

(** A document with neither subject nor preheader. *)
Lemma X4_missing_subject_printed :
  exists out log,
    generateMJML (loneBlock "banner") = (Return out, log)
    /\ Includes out "<mj-title>undefined</mj-title>"
    /\ Before out "</mj-head>" (bodyOpen (loadDesignTokens "cart_abandon")).
Proof.
  destruct (X4_envelope_order (loneBlock "banner") [taggedBlock "banner"] eq_refl)
    as [out [log [Hrun [_ [_ [_ [Hhead [_ [Ht _]]]]]]]]].
  exists out, log. split; [exact Hrun|]. split; [apply Ht; reflexivity | exact Hhead].
Defined.

(** *** Tags of a whole document *)

Ltac plain_item H :=
  unfold plainItem in H;
  let Hu := fresh "Hurl" in let Hm := fresh "Himg" in
  let Hn := fresh "Hname" in let Hp := fresh "Hprice" in
  apply andb_true_iff in H as [H Hu]; apply andb_true_iff in H as [H Hm];
  apply andb_true_iff in H as [Hn Hp].

Ltac plain_block H :=
  unfold plainBlock in H;
  repeat (let H' := fresh "Hfield" in apply andb_true_iff in H as [H H']).

Lemma plainTokens_load (category : string) :
  plainTokens (loadDesignTokens category) = true.
Proof.
  unfold loadDesignTokens, lookupOverride, templateOverrides. cbn [assoc].
  destruct (category =? "cart_abandon"); [reflexivity|].
  destruct (category =? "post_purchase"); [reflexivity|].
  destruct (category =? "order_confirmation"); [reflexivity|].
  destruct (existsb (String.eqb category) inheritedNames); reflexivity.
Qed.

Section DocumentTags.

Variable t : DesignTokens.
Hypothesis Ht : plainTokens t = true.

Lemma heroComponent_marks (b : Block) :
  plainBlock b = true ->
  Tame columnTag (heroComponent b t) 0
  /\ Tame bodyTag (heroComponent b t) 0
  /\ Tame bodyEnd (heroComponent b t) 0.
Proof.
  intros Hb. plain_block Hb. pose proof Ht as Hl. plain_tokens Hl.
  unfold heroComponent, heroSection, heroImage, heroSubcopy, columnTag, bodyTag, bodyEnd.
  cbv zeta. trim_template.
  destruct (truthy (imageUrl b)); destruct (truthy (subcopy b));
    (split; [|split]); tame_total.
Qed.

Lemma footerComponent_marks (b : Block) :
  plainBlock b = true ->
  Tame columnTag (footerComponent b t) 0
  /\ Tame bodyTag (footerComponent b t) 0
  /\ Tame bodyEnd (footerComponent b t) 0
  /\ Tame linkTag (footerComponent b t) 2.
Proof.
  intros Hb. plain_block Hb. pose proof Ht as Hl. plain_tokens Hl.
  unfold footerComponent, columnTag, bodyTag, bodyEnd, linkTag.
  cbv zeta. trim_template.
  (split; [|split; [|split]]); tame_total.
Qed.

Lemma itemsColumn_marks (it : Item.t) :
  plainItem it = true ->
  Tame bodyTag (itemsColumn t it) 0 /\ Tame bodyEnd (itemsColumn t it) 0.
Proof.
  intros Hi. plain_item Hi. pose proof Ht as Hl. plain_tokens Hl.
  unfold itemsColumn, bodyTag, bodyEnd. split; tame_total.
Qed.

Lemma recommendationsColumn_marks (it : Item.t) :
  plainItem it = true ->
  Tame bodyTag (recommendationsColumn t it) 0
  /\ Tame bodyEnd (recommendationsColumn t it) 0.
Proof.
  intros Hi. plain_item Hi. pose proof Ht as Hl. plain_tokens Hl.
  unfold recommendationsColumn, bodyTag, bodyEnd. split; tame_total.
Qed.

Lemma itemsSections_marks (title : prop) (markup : string) :
  plain (str title) = true ->
  Tame bodyTag markup 0 /\ Tame bodyEnd markup 0 ->
  Tame bodyTag (itemsSections t title markup) 0
  /\ Tame bodyEnd (itemsSections t title markup) 0.
Proof.
  intros Hti [Hm1 Hm2]. pose proof Ht as Hl. plain_tokens Hl.
  unfold itemsSections, bodyTag, bodyEnd in *. trim_template.
  split; tame_total.
Qed.

Lemma recommendationsSections_marks (title : prop) (markup : string) :
  plain (str title) = true ->
  Tame bodyTag markup 0 /\ Tame bodyEnd markup 0 ->
  Tame bodyTag (recommendationsSections t title markup) 0
  /\ Tame bodyEnd (recommendationsSections t title markup) 0.
Proof.
  intros Hti [Hm1 Hm2]. pose proof Ht as Hl. plain_tokens Hl.
  unfold recommendationsSections, bodyTag, bodyEnd in *. trim_template.
  split; tame_total.
Qed.

Lemma envelope_marks (subject preheader : prop) (mjmlBlocks : string) (n : nat) :
  plain (str subject) = true -> plain (str preheader) = true ->
  Tame columnTag mjmlBlocks n ->
  Tame bodyTag mjmlBlocks 0 -> Tame bodyEnd mjmlBlocks 0 ->
  Tame columnTag (envelope t subject preheader mjmlBlocks) n
  /\ Tame bodyTag (envelope t subject preheader mjmlBlocks) 1
  /\ Tame bodyEnd (envelope t subject preheader mjmlBlocks) 1.
Proof.
  intros Hs Hp Hc Hb He. pose proof Ht as Hl. plain_tokens Hl.
  unfold envelope, columnTag, bodyTag, bodyEnd in *. trim_template.
  (split; [|split]); tame_total.
Qed.

End DocumentTags.

Lemma Forall_firstn_keeps {A : Type} (P : A -> Prop) (n : nat) (l : list A) :
  Forall P l -> Forall P (firstn n l).
Proof.
  revert n. induction l as [|a l IH]; intros [|n] H; cbn [firstn]; try constructor.
  - now inversion H.
  - apply IH. now inversion H.
Qed.

Lemma plainBlock_items (b : Block) (l : list Item.t) :
  plainBlock b = true -> b.(items) = Some l ->
  Forall (fun it => plainItem it = true) l.
Proof.
  intros Hb Hi. unfold plainBlock in Hb. rewrite Hi in Hb.
  apply andb_true_iff in Hb as [_ Hb]. apply Forall_forall.
  now apply forallb_forall.
Qed.

Lemma plainBlock_title (b : Block) :
  plainBlock b = true -> plain (str b.(title)) = true.
Proof. intros Hb. plain_block Hb. assumption. Qed.

(** The tags a fragment holds: its product columns, and never the
    opening or the closing of a body. *)
Lemma fragment_marks (t : DesignTokens) (b : Block) :
  plainTokens t = true -> plainBlock b = true ->
  Tame columnTag (fragment t b) (columnsOf b)
  /\ Tame bodyTag (fragment t b) 0
  /\ Tame bodyEnd (fragment t b) 0.
Proof.
  intros Ht Hb. unfold fragment, compileBlock, columnsOf.
  destruct (hasType b "hero"); [exact (heroComponent_marks t Ht b Hb)|].
  destruct (hasType b "items").
  { cbn [fst]. unfold itemsComponent.
    destruct b.(items) as [[|i l]|] eqn:Hi;
      try (repeat split; reflexivity).
    change (Nat.eqb (List.length (i :: l)) 0) with false. cbv iota zeta.
    pose proof (plainBlock_items b _ Hb Hi) as Hits.
    pose proof (plainBlock_title b Hb) as Hti.
    split.
    - apply itemsSections_columns; [exact Ht | exact Hti |].
      apply tame_join_once. eapply Forall_impl; [|exact Hits].
      intros it. apply itemsColumn_once, Ht.
    - apply itemsSections_marks; [exact Ht | exact Hti |].
      split.
      + apply (tame_join_each bodyTag (itemsColumn t) 0).
        eapply Forall_impl; [|exact Hits]. intros it H.
        apply (itemsColumn_marks t Ht it H).
      + apply (tame_join_each bodyEnd (itemsColumn t) 0).
        eapply Forall_impl; [|exact Hits]. intros it H.
        apply (itemsColumn_marks t Ht it H). }
  destruct (hasType b "recommendations").
  { cbn [fst]. unfold recommendationsComponent.
    destruct b.(items) as [[|i l]|] eqn:Hi;
      try (repeat split; reflexivity).
    change (Nat.eqb (List.length (i :: l)) 0) with false. cbv iota zeta.
    pose proof (Forall_firstn_keeps _ 3 _ (plainBlock_items b _ Hb Hi)) as Hits.
    pose proof (plainBlock_title b Hb) as Hti.
    split.
    - rewrite <- length_firstn_3.
      apply recommendationsSections_columns; [exact Ht | exact Hti |].
      apply tame_join_once. eapply Forall_impl; [|exact Hits].
      intros it. apply recommendationsColumn_once, Ht.
    - apply recommendationsSections_marks; [exact Ht | exact Hti |].
      split.
      + apply (tame_join_each bodyTag (recommendationsColumn t) 0).
        eapply Forall_impl; [|exact Hits]. intros it H.
        apply (recommendationsColumn_marks t Ht it H).
      + apply (tame_join_each bodyEnd (recommendationsColumn t) 0).
        eapply Forall_impl; [|exact Hits]. intros it H.
        apply (recommendationsColumn_marks t Ht it H). }
  destruct (hasType b "footer").
  { destruct (footerComponent_marks t Ht b Hb) as [H1 [H2 [H3 _]]].
    split; [exact H1 | split; [exact H2 | exact H3]]. }
  repeat split; reflexivity.
Qed.

Lemma markup_marks (template : Template) (bs : list Block) :
  plain (str template.(subject)) = true ->
  plain (str template.(preheader)) = true ->
  forallb plainBlock bs = true ->
  Tame columnTag (markupOf template bs) (list_sum (map columnsOf bs))
  /\ Tame bodyTag (markupOf template bs) 1
  /\ Tame bodyEnd (markupOf template bs) 1.
Proof.
  intros Hs Hp Hbs. unfold markupOf.
  assert (Ht : plainTokens (tokensOf template) = true) by apply plainTokens_load.
  assert (Hf : forall b, In b bs ->
                 Tame columnTag (fragment (tokensOf template) b) (columnsOf b)
                 /\ Tame bodyTag (fragment (tokensOf template) b) 0
                 /\ Tame bodyEnd (fragment (tokensOf template) b) 0).
  { intros b Hin. apply fragment_marks; [exact Ht|].
    rewrite forallb_forall in Hbs. now apply Hbs. }
  assert (Hzero : list_sum (map (fun _ : Block => 0) bs) = 0).
  { clear. induction bs; [reflexivity | exact IHbs]. }
  apply envelope_marks; try assumption.
  - apply tame_join_sum; [split; reflexivity|]. intros b Hin. now apply Hf.
  - rewrite <- Hzero. apply tame_join_sum; [split; reflexivity|].
    intros b Hin. now apply Hf.
  - rewrite <- Hzero. apply tame_join_sum; [split; reflexivity|].
    intros b Hin. now apply Hf.
Qed.

(** X5. When the subject, the preheader and the texts of the blocks
    open no tag themselves, the number of product columns of the whole
    document is the sum over its blocks, for every template category: one
    per item of an items block, at most three per recommendations block,
    none for any other block. *)
Theorem X5_document_columns (template : Template) (bs : list Block) :
  template.(blocks) = Some bs ->
  plain (str template.(subject)) = true ->
  plain (str template.(preheader)) = true ->
  forallb plainBlock bs = true ->
  exists out log,
    generateMJML template = (Return out, log)
    /\ occurrences columnTag out = list_sum (map columnsOf bs).
Proof.
  intros Hb Hs Hp Hbs. rewrite (generateMJML_eq template bs Hb).
  eexists. eexists. split; [reflexivity|].
  now destruct (markup_marks template bs Hs Hp Hbs) as [[_ H] _].
Qed.

(** Two items and five recommendations: five columns. *)
Lemma X5_two_items_five_recommendations :
  exists out log,
    generateMJML
      (document "post_purchase" "S" "P"
         [ heroBlock (Some "H") (Some "sub") (Some "img") None;
           itemsBlock "items" (Some "T1")
             (Some [product "A1" "Lamp" "10"; product "B2" "Chair" "20"]);
           itemsBlock "recommendations" (Some "T2") (Some fiveProducts);
           footerBlock (Some "L") (Some "pu") (Some "uu") ])
      = (Return out, log)
    /\ occurrences columnTag out = 5.
Proof.
  apply (X5_document_columns
           (document "post_purchase" "S" "P"
              [ heroBlock (Some "H") (Some "sub") (Some "img") None;
                itemsBlock "items" (Some "T1")
                  (Some [product "A1" "Lamp" "10"; product "B2" "Chair" "20"]);
                itemsBlock "recommendations" (Some "T2") (Some fiveProducts);
                footerBlock (Some "L") (Some "pu") (Some "uu") ])
           _ eq_refl eq_refl eq_refl eq_refl).
Defined.

(** X6. When the subject, the preheader and the texts of the blocks
    open no tag themselves, the document has exactly one body, opened
    once and closed once, whatever its blocks and its category: no block
    fragment opens or closes a body. *)
Theorem X6_document_one_body (template : Template) (bs : list Block) :
  template.(blocks) = Some bs ->
  plain (str template.(subject)) = true ->
  plain (str template.(preheader)) = true ->
  forallb plainBlock bs = true ->
  exists out log,
    generateMJML template = (Return out, log)
    /\ occurrences bodyTag out = 1
    /\ occurrences bodyEnd out = 1
    /\ (forall b, In b bs ->
          occurrences bodyTag (fragment (tokensOf template) b) = 0
          /\ occurrences bodyEnd (fragment (tokensOf template) b) = 0).
Proof.
  intros Hb Hs Hp Hbs. rewrite (generateMJML_eq template bs Hb).
  eexists. eexists. split; [reflexivity|].
  destruct (markup_marks template bs Hs Hp Hbs) as [_ [[_ H1] [_ H2]]].
  split; [exact H1|]. split; [exact H2|].
  intros b Hin. rewrite forallb_forall in Hbs.
  destruct (fragment_marks (tokensOf template) b (plainTokens_load _) (Hbs b Hin))
    as [_ [[_ H3] [_ H4]]].
  now split.
Qed.

(** The document of the end-to-end scenario. *)
Lemma X6_scenario_one_body :
  exists out log,
    generateMJML
      (document "cart_abandon" "S" "P"
         [ heroBlock (Some "H") (Some "") (Some "") None;
           footerBlock (Some "L") (Some "pu") (Some "uu") ])
      = (Return out, log)
    /\ occurrences bodyTag out = 1
    /\ occurrences bodyEnd out = 1.
Proof.
  destruct (X6_document_one_body
              (document "cart_abandon" "S" "P"
                 [ heroBlock (Some "H") (Some "") (Some "") None;
                   footerBlock (Some "L") (Some "pu") (Some "uu") ])
              _ eq_refl eq_refl eq_refl eq_refl)
    as [out [log [Hrun [H1 [H2 _]]]]].
  exists out, log. now repeat split.
Defined.

(** *** More of the components *)

Lemma Before_first (p rest q : string) :
  Includes rest q -> Before (p ++ rest) p q.
Proof. intros [a [b ->]]. now exists "", a, b. Qed.

Lemma Before_first3 (a b c rest q : string) :
  Includes rest q -> Before (a ++ b ++ c ++ rest) (a ++ b ++ c) q.
Proof.
  intros [x [y ->]]. exists "", x, y. simpl. now rewrite !append_assoc.
Qed.

(** Walks down a concatenation to the piece [p], then on to the
    attribute value [u] between its double quotes. *)
Ltac find_then p u :=
  lazymatch goal with
  | |- Before (p ++ _) _ _ => apply Before_first; find_quoted u
  | |- Before (_ ++ _) _ _ => apply Before_skip; find_then p u
  end.

Ltac find_quoted_then v u :=
  lazymatch goal with
  | |- Before (dq ++ v ++ dq ++ _) _ _ => apply Before_first3; find_quoted u
  | |- Before (_ ++ _) _ _ => apply Before_skip; find_quoted_then v u
  end.

(** X7. The hero component always prints the headline, a missing one
    as the text [undefined]; it prints the subcopy, unchanged and in a
    text element of its own, exactly when the subcopy is a non-empty
    string, and an image element exactly when [imageUrl] is a non-empty
    string.  Counted on the compiled text when the printed texts open
    no tag themselves: one image element or none, two text elements or
    one. *)
Theorem X7_hero_elements (tokens : DesignTokens) (block : Block) :
  Includes (heroComponent block tokens) (str block.(headline))
  /\ (truthy block.(subcopy) = true ->
      Includes (heroComponent block tokens) (heroSubcopy block tokens)
      /\ Includes (heroSubcopy block tokens) (str block.(subcopy)))
  /\ (truthy block.(imageUrl) = true ->
      Includes (heroComponent block tokens) (heroImage block tokens))
  /\ (plainTokens tokens = true -> plainHero block = true ->
      occurrences imageTag (heroComponent block tokens)
        = (if truthy block.(imageUrl) then 1 else 0)
      /\ occurrences textTag (heroComponent block tokens)
           = (if truthy block.(subcopy) then 2 else 1)).
Proof.
  split; [|split; [|split]].
  - unfold heroComponent, heroSection. cbv zeta. trim_template.
    skip_to (str block.(headline)). apply Includes_refl.
  - intros H. split.
    + unfold heroComponent, heroSection. cbv zeta. rewrite H. trim_template.
      skip_to (heroSubcopy block tokens). apply Includes_refl.
    + unfold heroSubcopy. cbv zeta.
      skip_to (str block.(subcopy)). apply Includes_refl.
  - intros H. unfold heroComponent, heroSection. cbv zeta. rewrite H.
    trim_template. skip_to (heroImage block tokens). apply Includes_refl.
  - intros Ht Hb. split.
    + now destruct (heroComponent_images tokens Ht block Hb).
    + now destruct (heroComponent_texts tokens Ht block Hb).
Qed.

(** A hero with an image and a subcopy. *)
Lemma X7_full_hero :
  occurrences imageTag
    (heroComponent (heroBlock (Some "H") (Some "sub") (Some "img") None)
       defaultTokens) = 1
  /\ occurrences textTag
       (heroComponent (heroBlock (Some "H") (Some "sub") (Some "img") None)
          defaultTokens) = 2.
Proof.
  exact (proj2 (proj2 (proj2
           (X7_hero_elements defaultTokens
              (heroBlock (Some "H") (Some "sub") (Some "img") None))))
           eq_refl eq_refl).
Defined.

(** X8. The footer component has no guard: it compiles every block,
    one with no property at all included, printing the legal text, then
    the preferences address, then the unsubscribe address, each
    unchanged (a missing one as the text [undefined]); when the printed
    texts open no tag themselves the fragment has exactly two links. *)
Theorem X8_footer_links (tokens : DesignTokens) (block : Block) :
  Before (footerComponent block tokens)
    (str block.(legal)) (dq ++ str block.(preferencesUrl) ++ dq)
  /\ Before (footerComponent block tokens)
       (dq ++ str block.(preferencesUrl) ++ dq)
       (dq ++ str block.(unsubscribeUrl) ++ dq)
  /\ (plainTokens tokens = true -> plainBlock block = true ->
      occurrences linkTag (footerComponent block tokens) = 2).
Proof.
  split; [|split].
  - unfold footerComponent. cbv zeta. trim_template.
    find_then (str block.(legal)) (str block.(preferencesUrl)).
  - unfold footerComponent. cbv zeta. trim_template.
    find_quoted_then (str block.(preferencesUrl)) (str block.(unsubscribeUrl)).
  - intros Ht Hb.
    now destruct (footerComponent_marks tokens Ht block Hb) as [_ [_ [_ [_ H]]]].
Qed.

(** The footer of a block with no property. *)
Lemma X8_empty_footer :
  occurrences linkTag (footerComponent emptyBlock defaultTokens) = 2
  /\ Before (footerComponent emptyBlock defaultTokens)
       "undefined" (dq ++ "undefined" ++ dq).
Proof.
  split.
  - exact (proj2 (proj2 (X8_footer_links defaultTokens emptyBlock)) eq_refl eq_refl).
  - exact (proj1 (X8_footer_links defaultTokens emptyBlock)).
Defined.

(** *** More of the token resolver *)

(** X9. Only two categories change anything: [loadDesignTokens]
    returns the default token set for every string other than
    [cart_abandon] and [post_purchase], the known category
    [order_confirmation] included, whose override repeats the default
    primary colour. *)
Theorem X9_override_effect (category : string) :
  loadDesignTokens category = defaultTokens
  <-> (category <> "cart_abandon" /\ category <> "post_purchase").
Proof.
  split.
  - intros H. split; intros ->; discriminate H.
  - intros [H1 H2]. unfold loadDesignTokens, lookupOverride, templateOverrides.
    cbn [assoc].
    apply String.eqb_neq in H1. apply String.eqb_neq in H2. rewrite H1, H2.
    destruct (category =? "order_confirmation"); [reflexivity|].
    destruct (existsb (String.eqb category) inheritedNames); reflexivity.
Qed.

(** *** Fields that are not printed *)

Lemma generateMJML_locale (l : prop) (t : Template) :
  generateMJML (withLocale l t) = generateMJML t.
Proof. reflexivity. Qed.

Lemma compileBlock_resku (f : Item.t -> prop) (t : DesignTokens) (b : Block) :
  compileBlock t (reskuBlock f b) = compileBlock t b.
Proof.
  destruct b as [ty hl sc im ch ti [its|] lg pu uu]; [|reflexivity].
  unfold compileBlock, hasType, reskuBlock.
  cbn [type headline subcopy imageUrl customHtml title items legal
       preferencesUrl unsubscribeUrl option_map].
  assert (Hi : map (itemsColumn t) (map (fun i => withSku (f i) i) its)
               = map (itemsColumn t) its).
  { rewrite map_map. apply map_ext. intros i. reflexivity. }
  assert (Hr : map (recommendationsColumn t)
                 (firstn 3 (map (fun i => withSku (f i) i) its))
               = map (recommendationsColumn t) (firstn 3 its)).
  { rewrite firstn_map, map_map. apply map_ext. intros i. reflexivity. }
  assert (Ei : itemsComponent
                 {| type := ty; headline := hl; subcopy := sc; imageUrl := im;
                    customHtml := ch; title := ti;
                    items := Some (map (fun i => withSku (f i) i) its);
                    legal := lg; preferencesUrl := pu; unsubscribeUrl := uu |} t
               = itemsComponent
                 {| type := ty; headline := hl; subcopy := sc; imageUrl := im;
                    customHtml := ch; title := ti; items := Some its;
                    legal := lg; preferencesUrl := pu; unsubscribeUrl := uu |} t).
  { unfold itemsComponent. cbn [title items]. cbv zeta.
    now rewrite length_map, Hi. }
  assert (Er : recommendationsComponent
                 {| type := ty; headline := hl; subcopy := sc; imageUrl := im;
                    customHtml := ch; title := ti;
                    items := Some (map (fun i => withSku (f i) i) its);
                    legal := lg; preferencesUrl := pu; unsubscribeUrl := uu |} t
               = recommendationsComponent
                 {| type := ty; headline := hl; subcopy := sc; imageUrl := im;
                    customHtml := ch; title := ti; items := Some its;
                    legal := lg; preferencesUrl := pu; unsubscribeUrl := uu |} t).
  { unfold recommendationsComponent. cbn [title items]. cbv zeta.
    now rewrite length_map, Hr. }
  rewrite Ei, Er. reflexivity.
Qed.

Lemma mapM_resku (f : Item.t -> prop) (t : DesignTokens) (bs : list Block) :
  mapM (compileBlock t) (map (reskuBlock f) bs) = mapM (compileBlock t) bs.
Proof.
  induction bs as [|b bs IH]; [reflexivity|].
  cbn [map mapM]. now rewrite compileBlock_resku, IH.
Qed.

Lemma generateMJML_resku (f : Item.t -> prop) (t : Template) :
  generateMJML (resku f t) = generateMJML t.
Proof.
  destruct t as [l ty s p [bs|]]; [|reflexivity].
  unfold generateMJML, resku.
  cbn [locale templateType subject preheader blocks option_map]. cbv zeta.
  now rewrite mapM_resku.
Qed.

(** X16. The renderer reads neither the locale of a request nor the SKU
    of an item: for every MJML compiler, a request answered under one
    locale is answered in the same way, console output included, under
    any other locale or none, and replacing the SKUs of the items of
    all blocks changes nothing in the answer either. *)
Theorem X16_locale_and_sku_unread (mjml : string -> Outcome MjmlResult)
    (body : Template) (l : prop) (f : Item.t -> prop) :
  postRender mjml (withLocale l body) = postRender mjml body
  /\ postRender mjml (resku f body) = postRender mjml body.
Proof.
  split.
  - destruct body as [l0 ty s p bs]. reflexivity.
  - destruct body as [l0 ty s p [bs|]]; [|reflexivity].
    unfold postRender. cbv zeta.
    change (blocks (resku f {| locale := l0; templateType := ty; subject := s;
                               preheader := p; blocks := Some bs |}))
      with (Some (map (reskuBlock f) bs)).
    cbn [locale templateType subject preheader blocks resku].
    pose proof (generateMJML_resku f
                  {| locale := l0; templateType := ty; subject := s;
                     preheader := p; blocks := Some bs |}) as E.
    unfold resku in E. cbn [locale templateType subject preheader blocks option_map] in E.
    now rewrite E.
Qed.

(** *** An instance of the token resolver *)

(** An order confirmation is rendered with the default tokens. *)
Lemma X9_order_confirmation_default :
  loadDesignTokens "order_confirmation" = defaultTokens.
Proof.
  apply (proj2 (X9_override_effect "order_confirmation")).
  split; discriminate.
Defined.

(* ================================================================== *)
(** * Part IX. The front end *)
(* ================================================================== *)

(** *** Facts about strings of code units *)

Module U16Facts.

Import U16.
#[local] Open Scope list_scope.

Lemma u_trimEnd_empty (s : U16.t) : trimEnd s = [] <-> blank s = true.
Proof.
  induction s as [|c s IH]; [now split|]. cbn [trimEnd blank forallb].
  unfold blank in IH. destruct (trimEnd s) eqn:E.
  - destruct (isWhiteSpace c); cbn [andb].
    + split; [intros _; now apply IH | reflexivity].
    + split; discriminate.
  - split; [discriminate|]. intros H. apply andb_true_iff in H as [_ H].
    apply IH in H. discriminate H.
Qed.

Lemma u_trimStart_empty (s : U16.t) : trimStart s = [] <-> blank s = true.
Proof.
  induction s as [|c s IH]; [now split|]. cbn [trimStart blank forallb].
  unfold blank in IH. destruct (isWhiteSpace c); cbn [andb]; [exact IH|].
  split; discriminate.
Qed.

Lemma u_blank_app (a b : U16.t) : blank (a ++ b) = blank a && blank b.
Proof. unfold blank. apply forallb_app. Qed.

Lemma u_trimEnd_app (a b : U16.t) :
  blank b = false -> trimEnd (a ++ b) = a ++ trimEnd b.
Proof.
  intros Hb. induction a as [|c a IH]; [reflexivity|].
  cbn [app trimEnd]. rewrite IH.
  destruct (a ++ trimEnd b) eqn:E; [|reflexivity].
  apply app_eq_nil in E as [_ E]. apply u_trimEnd_empty in E. congruence.
Qed.

Lemma u_trimEnd_app_blank (a b : U16.t) :
  blank b = true -> trimEnd (a ++ b) = trimEnd a.
Proof.
  intros Hb. induction a as [|c a IH].
  - now apply u_trimEnd_empty.
  - cbn [app trimEnd]. now rewrite IH.
Qed.

Lemma u_trimEnd_idem (s : U16.t) : trimEnd (trimEnd s) = trimEnd s.
Proof.
  induction s as [|c s IH]; [reflexivity|]. cbn [trimEnd].
  destruct (trimEnd s) as [|d r] eqn:E.
  - destruct (isWhiteSpace c) eqn:Hc; [reflexivity|]. cbn [trimEnd]. now rewrite Hc.
  - cbn [trimEnd] in *. now rewrite IH.
Qed.

Lemma u_trimStart_startsClean (s : U16.t) : startsClean (trimStart s).
Proof.
  induction s as [|c s IH]; [exact I|]. cbn [trimStart].
  destruct (isWhiteSpace c) eqn:E; [exact IH | exact E].
Qed.

Lemma u_trimStart_clean (s : U16.t) : startsClean s -> trimStart s = s.
Proof. destruct s as [|c s]; [reflexivity|]. cbn. now intros ->. Qed.

Lemma u_trimEnd_startsClean (s : U16.t) : startsClean s -> startsClean (trimEnd s).
Proof.
  destruct s as [|c s]; [auto|]. cbn [startsClean trimEnd]. intros H.
  destruct (trimEnd s); [now rewrite H | exact H].
Qed.

Lemma u_trim_idem (s : U16.t) : trim (trim s) = trim s.
Proof.
  unfold trim at 1. rewrite u_trimStart_clean.
  - apply u_trimEnd_idem.
  - apply u_trimEnd_startsClean, u_trimStart_startsClean.
Qed.

Lemma u_trim_empty (s : U16.t) : trim s = [] <-> blank s = true.
Proof.
  unfold trim. rewrite u_trimEnd_empty. split.
  - intros H. induction s as [|c s IH]; [reflexivity|].
    cbn [trimStart] in H. cbn [blank forallb]. unfold blank in *.
    destruct (isWhiteSpace c) eqn:E; cbn [andb].
    + now apply IH.
    + cbn [forallb] in H. now rewrite E in H.
  - intros H. apply u_trimStart_empty in H. now rewrite H.
Qed.

Lemma u_trimStart_incl (s : U16.t) (c : N) : In c (trimStart s) -> In c s.
Proof.
  induction s as [|d s IH]; [auto|]. cbn [trimStart].
  destruct (isWhiteSpace d); [intros H; right; now apply IH | auto].
Qed.

Lemma u_trimEnd_incl (s : U16.t) (c : N) : In c (trimEnd s) -> In c s.
Proof.
  induction s as [|d s IH]; [auto|]. cbn [trimEnd].
  destruct (trimEnd s) as [|e r].
  - destruct (isWhiteSpace d); [contradiction|]. intros [->|[]]. now left.
  - intros [->|H]; [now left | right; now apply IH].
Qed.

Lemma u_trim_incl (s : U16.t) (c : N) : In c (trim s) -> In c s.
Proof. intros H. now apply u_trimStart_incl, u_trimEnd_incl. Qed.

(** *** split and join *)

Lemma u_split_nonempty (sep : N) (s : U16.t) : split sep s <> [].
Proof.
  induction s as [|c s IH]; [discriminate|]. cbn [split].
  destruct (N.eqb c sep); [discriminate|]. destruct (split sep s); discriminate.
Qed.

Lemma u_split_no_sep (sep : N) (s piece : U16.t) :
  In piece (split sep s) -> ~ In sep piece.
Proof.
  revert piece. induction s as [|c s IH]; intros piece.
  - intros [<-|[]]. auto.
  - cbn [split]. destruct (N.eqb_spec c sep) as [->|Hne].
    + intros [<-|H]; [auto | now apply IH].
    + destruct (split sep s) as [|p ps] eqn:E.
      * intros [<-|[]]. intros [H|[]]. congruence.
      * intros [<-|H].
        -- intros [H|H]; [congruence|]. apply (IH p); [now left | exact H].
        -- apply IH. now right.
Qed.

(** Joining the pieces of a split with the separator restores the
    string. *)
Lemma u_join_split (sep : N) (s : U16.t) : join [sep] (split sep s) = s.
Proof.
  induction s as [|c s IH]; [reflexivity|]. cbn [split].
  destruct (N.eqb_spec c sep) as [->|Hne].
  - pose proof (u_split_nonempty sep s) as Hn.
    destruct (split sep s) as [|p ps]; [contradiction|].
    cbn [join app] in *. now rewrite IH.
  - pose proof (u_split_nonempty sep s) as Hn.
    destruct (split sep s) as [|p ps]; [contradiction|].
    destruct ps as [|q qs]; cbn [join app] in *; now rewrite <- IH.
Qed.

Lemma u_split_app_clean (sep : N) (x rest : U16.t) :
  ~ In sep x ->
  split sep (x ++ sep :: rest) = x :: split sep rest.
Proof.
  induction x as [|c x IH]; intros Hx.
  - cbn [app split]. now rewrite N.eqb_refl.
  - cbn [app split]. destruct (N.eqb_spec c sep) as [->|Hne].
    + exfalso. apply Hx. now left.
    + rewrite IH; [reflexivity|]. intros H. apply Hx. now right.
Qed.

Lemma u_split_clean (sep : N) (x : U16.t) : ~ In sep x -> split sep x = [x].
Proof.
  induction x as [|c x IH]; intros Hx; [reflexivity|]. cbn [split].
  destruct (N.eqb_spec c sep) as [->|Hne].
  - exfalso. apply Hx. now left.
  - rewrite IH; [reflexivity|]. intros H. apply Hx. now right.
Qed.

(** Splitting a join of pieces that hold no separator restores the
    pieces. *)
Lemma u_split_join (sep : N) (l : list U16.t) :
  l <> [] -> Forall (fun x => ~ In sep x) l ->
  split sep (join [sep] l) = l.
Proof.
  intros Hne H. induction H as [|x l Hx Hl IH]; [contradiction|].
  destruct l as [|y l].
  - cbn [join]. now apply u_split_clean.
  - cbn [join]. cbn [app]. rewrite u_split_app_clean by exact Hx.
    f_equal. apply IH. discriminate.
Qed.

Lemma u_In_join (sep : U16.t) (l : list U16.t) (c : N) :
  In c (join sep l) -> In c sep \/ exists x, In x l /\ In c x.
Proof.
  induction l as [|x l IH]; [contradiction|]. destruct l as [|y l].
  - cbn [join]. intros H. right. exists x. split; [now left | exact H].
  - cbn [join]. rewrite !in_app_iff. intros [H|[H|H]].
    + right. exists x. split; [now left | exact H].
    + now left.
    + destruct (IH H) as [Hs|[z [Hz Hc]]]; [now left|].
      right. exists z. split; [now right | exact Hc].
Qed.

Lemma u_In_piece_join (sep : U16.t) (l : list U16.t) (x : U16.t) (c : N) :
  In x l -> In c x -> In c (join sep l).
Proof.
  induction l as [|y l IH]; [contradiction|]. intros Hx Hc.
  destruct l as [|z l].
  - destruct Hx as [->|[]]. exact Hc.
  - cbn [join]. rewrite !in_app_iff. destruct Hx as [->|Hx]; [now left|].
    right. right. now apply IH.
Qed.

Lemma u_startsWith_spec (s p : U16.t) :
  startsWith s p = true <-> exists rest, s = p ++ rest.
Proof.
  revert s. induction p as [|b p IH]; intros s.
  - split; [intros _; now exists s | reflexivity].
  - destruct s as [|a s]; cbn [startsWith].
    + split; [discriminate | intros [rest H]; discriminate H].
    + rewrite andb_true_iff, N.eqb_eq, IH. split.
      * intros [-> [rest ->]]. now exists rest.
      * intros [rest H]. injection H as -> ->. split; [reflexivity | now exists rest].
Qed.

End U16Facts.

(** *** The SKU field *)

Lemma nonEmpty_true (x : U16.t) : U16.nonEmpty x = true <-> x <> [].
Proof. destruct x; split; try discriminate; try reflexivity. congruence. Qed.

(** X10. Whatever is typed in the SKU field, every SKU of the request
    is a non-empty string with no comma in it and no white space at
    either end, Unicode white space included. *)
Theorem X10_parseSkus_clean (skus x : U16.t) :
  In x (parseSkus skus) -> cleanSku x.
Proof.
  unfold parseSkus. rewrite filter_In, in_map_iff.
  intros [[piece [<- Hp]] Hne]. split; [now apply nonEmpty_true|]. split.
  - intros H. apply U16Facts.u_trim_incl in H.
    exact (U16Facts.u_split_no_sep comma skus piece Hp H).
  - apply U16Facts.u_trim_idem.
Qed.

(** [ SKU001 ,, SKU002] gives the two SKUs. *)
Lemma X10_padded_field_clean :
  In (U16.ofString "SKU002") (parseSkus (U16.ofString " SKU001 ,, SKU002"))
  /\ cleanSku (U16.ofString "SKU002").
Proof.
  assert (H : In (U16.ofString "SKU002")
                (parseSkus (U16.ofString " SKU001 ,, SKU002"))).
  { vm_compute. tauto. }
  split; [exact H|].
  exact (X10_parseSkus_clean (U16.ofString " SKU001 ,, SKU002")
           (U16.ofString "SKU002") H).
Defined.

Lemma filter_map_clean (l : list U16.t) :
  Forall cleanSku l -> filter U16.nonEmpty (map U16.trim l) = l.
Proof.
  intros H. induction H as [|x l [Hne [_ Ht]] Hl IH]; [reflexivity|].
  cbn [map filter]. rewrite Ht. apply nonEmpty_true in Hne. now rewrite Hne, IH.
Qed.

(** X11. Reading back the field: for pieces that hold no comma, the
    SKUs read from the pieces joined with commas are the trimmed pieces
    that are not empty, in the same order and with repetitions kept; a
    list of clean SKUs joined with commas is read back unchanged. *)
Theorem X11_parseSkus_join (pieces : list U16.t) :
  Forall (fun x => ~ In comma x) pieces ->
  parseSkus (U16.join [comma] pieces)
    = filter U16.nonEmpty (map U16.trim pieces)
  /\ (Forall cleanSku pieces ->
      parseSkus (U16.join [comma] pieces) = pieces).
Proof.
  intros H.
  assert (E : parseSkus (U16.join [comma] pieces)
              = filter U16.nonEmpty (map U16.trim pieces)).
  { unfold parseSkus. destruct pieces as [|x l]; [reflexivity|].
    rewrite U16Facts.u_split_join; [reflexivity | discriminate | exact H]. }
  split; [exact E|]. intros Hc. rewrite E. now apply filter_map_clean.
Qed.

Lemma X11_two_skus_read_back :
  parseSkus (U16.join [comma] [U16.ofString "SKU001"; U16.ofString "SKU002"])
    = [U16.ofString "SKU001"; U16.ofString "SKU002"].
Proof.
  apply (proj2 (X11_parseSkus_join
                  [U16.ofString "SKU001"; U16.ofString "SKU002"]
                  ltac:(repeat constructor; vm_compute; intuition discriminate))).
  repeat constructor; try discriminate; vm_compute; intuition discriminate.
Defined.

Lemma filter_nil_iff {A : Type} (f : A -> bool) (l : list A) :
  filter f l = [] <-> forall x, In x l -> f x = false.
Proof.
  induction l as [|a l IH]; [now split|]. cbn [filter].
  destruct (f a) eqn:E.
  - split; [discriminate|]. intros H. specialize (H a (or_introl eq_refl)). congruence.
  - rewrite IH. split.
    + intros H x [<-|Hx]; [exact E | now apply H].
    + intros H x Hx. apply H. now right.
Qed.

(** X12. The request carries no SKU exactly when the field holds
    nothing but commas and white space; the empty field is one such
    case. *)
Theorem X12_parseSkus_none (skus : U16.t) :
  parseSkus skus = []
  <-> Forall (fun c => c = comma \/ U16.isWhiteSpace c = true) skus.
Proof.
  unfold parseSkus. rewrite filter_nil_iff, Forall_forall. split.
  - intros H c Hc. rewrite <- (U16Facts.u_join_split comma skus) in Hc.
    apply U16Facts.u_In_join in Hc as [[<-|[]]|[piece [Hp Hc]]]; [now left|].
    right. specialize (H (U16.trim piece) (in_map _ _ _ Hp)).
    assert (Hb : U16.blank piece = true).
    { apply U16Facts.u_trim_empty. destruct (U16.trim piece); [reflexivity | discriminate H]. }
    unfold U16.blank in Hb. rewrite forallb_forall in Hb. now apply Hb.
  - intros H x Hx. apply in_map_iff in Hx as [piece [<- Hp]].
    assert (Hb : U16.blank piece = true).
    { unfold U16.blank. apply forallb_forall. intros c Hc.
      assert (Hs : In c skus).
      { rewrite <- (U16Facts.u_join_split comma skus).
        eapply U16Facts.u_In_piece_join; eassumption. }
      destruct (H c Hs) as [->|Hw]; [|exact Hw].
      exfalso. exact (U16Facts.u_split_no_sep comma skus piece Hp Hc). }
    apply U16Facts.u_trim_empty in Hb. now rewrite Hb.
Qed.

(** *** The stream reader *)

Lemma length_trimEnd_data (rest : U16.t) :
  Nat.ltb 6 (List.length (U16.trim (U16.ofString "data: " ++ rest)%list))
    = negb (U16.blank rest).
Proof.
  unfold U16.trim.
  change (U16.trimStart (U16.ofString "data: " ++ rest)%list)
    with (U16.ofString "data: " ++ rest)%list.
  destruct (U16.blank rest) eqn:E.
  - rewrite U16Facts.u_trimEnd_app_blank by exact E. reflexivity.
  - rewrite U16Facts.u_trimEnd_app by exact E. rewrite length_app.
    destruct (U16.trimEnd rest) eqn:Er.
    + apply U16Facts.u_trimEnd_empty in Er. congruence.
    + reflexivity.
Qed.

(** X13. The stream reader hands a line to the JSON parser exactly
    when the line starts with [data: ] and something other than white
    space follows, and then it hands over that rest, trimmed and never
    empty; every other line is ignored.  The skip for empty data that
    follows the first test can therefore never be taken. *)
Theorem X13_readLine (line : U16.t) :
  readLine line <> SkipEmpty
  /\ (forall p, readLine line = Parse p <->
        exists rest, line = (U16.ofString "data: " ++ rest)%list
                     /\ U16.blank rest = false
                     /\ p = U16.trim rest)
  /\ (forall p, readLine line = Parse p -> p <> []).
Proof.
  assert (Hparse : forall rest,
            U16.blank rest = false ->
            readLine (U16.ofString "data: " ++ rest)%list = Parse (U16.trim rest)).
  { intros rest Hb. unfold readLine.
    rewrite (proj2 (U16Facts.u_startsWith_spec _ _)) by now exists rest.
    rewrite length_trimEnd_data, Hb. cbn [negb andb]. cbv zeta.
    change (U16.slice 6 (U16.ofString "data: " ++ rest)%list) with rest.
    destruct (U16.trim rest) eqn:E; [|reflexivity].
    apply U16Facts.u_trim_empty in E. congruence. }
  assert (Hignore : forall rest,
            U16.blank rest = true ->
            readLine (U16.ofString "data: " ++ rest)%list = Ignore).
  { intros rest Hb. unfold readLine.
    rewrite length_trimEnd_data, Hb. now rewrite andb_false_r. }
  assert (Hcases : readLine line = Ignore
                   \/ exists rest, line = (U16.ofString "data: " ++ rest)%list
                                   /\ U16.blank rest = false
                                   /\ readLine line = Parse (U16.trim rest)).
  { destruct (U16.startsWith line (U16.ofString "data: ")) eqn:E.
    - apply U16Facts.u_startsWith_spec in E as [rest ->].
      destruct (U16.blank rest) eqn:Hb; [left; now apply Hignore|].
      right. exists rest. repeat split; [exact Hb | now apply Hparse].
    - left. unfold readLine. now rewrite E. }
  assert (Htrim : forall rest, U16.blank rest = false -> U16.trim rest <> []).
  { intros rest Hb E. apply U16Facts.u_trim_empty in E. congruence. }
  split; [|split].
  - destruct Hcases as [->|[rest [_ [_ ->]]]]; discriminate.
  - intros p. split.
    + intros H. destruct Hcases as [E|[rest [Hl [Hb E]]]]; [congruence|].
      exists rest. repeat split; [exact Hl | exact Hb | congruence].
    + intros [rest [-> [Hb ->]]]. now apply Hparse.
  - intros p H. destruct Hcases as [E|[rest [_ [Hb E]]]]; [congruence|].
    rewrite E in H. injection H as <-. now apply Htrim.
Qed.

(** *** The agents of the progress display *)

Lemma agentIds : map Agent.id agents
  = [ "supervisor"; "retriever"; "asset_curator"; "copywriter";
      "template_layout"; "render" ].
Proof. reflexivity. Qed.

(** X14. A progress event never makes the display read past the list of
    agents, and the agents it marks completed are exactly those before
    the agent of the event in the order of the pipeline, never that
    agent itself; for an agent the display does not know none is marked
    completed. *)
Theorem X14_completedBefore (agent : string) :
  exists completed,
    completedBefore agent = Return completed
    /\ ~ In agent completed
    /\ (In agent (map Agent.id agents) ->
        exists pending, map Agent.id agents = (completed ++ agent :: pending)%list)
    /\ (~ In agent (map Agent.id agents) -> completed = []).
Proof.
  rewrite agentIds.
  unfold completedBefore, findIndex, agents. cbn [findIndexFrom Agent.id].
  repeat match goal with
  | |- context [?k =? agent] =>
      destruct (String.eqb_spec k agent) as [<-|?];
      [eexists; split; [reflexivity|];
       split; [simpl; intuition discriminate|];
       split; [intros _; eexists; reflexivity | simpl; tauto]|]
  end.
  exists []. split; [reflexivity|]. split; [auto|].
  split; [|reflexivity]. simpl. intuition congruence.
Qed.

(** *** The two forwarding routes *)

Lemma ok_range {J : Type} (r : Proxy.Upstream J) :
  Proxy.ok r = true <-> 200 <= r.(Proxy.status) <= 299.
Proof.
  unfold Proxy.ok. rewrite andb_true_iff, !Nat.leb_le. tauto.
Qed.

(** X15. Both forwarding routes answer with the data of the
    orchestrator exactly when the request could be read, the call
    returned, its status was in the range 200 to 299 and its body was
    JSON; in every other case the answer is status 500 with one fixed
    error text, so a status or a message of the orchestrator never
    reaches the browser.  The orchestrator is called exactly once when
    the request could be read and not at all otherwise, at the
    configured address or, when none is configured, at
    [http://localhost:8000]. *)
Theorem X15_routes_forward {J B : Type} (env : prop) (request : Outcome B)
    (fetch : string -> B -> Outcome (Proxy.Upstream J)) :
  (forall data,
     fst (Proxy.generateRoute env request fetch) = Proxy.Data data <->
     exists body response,
       request = Return body
       /\ fetch (Proxy.orchestratorUrl env ++ "/generate") body = Return response
       /\ 200 <= response.(Proxy.status) <= 299
       /\ response.(Proxy.json) = Return data)
  /\ ((exists data, fst (Proxy.generateRoute env request fetch) = Proxy.Data data)
      \/ fst (Proxy.generateRoute env request fetch) = Proxy.Failed 500 "Failed to generate email")
  /\ Proxy.fetches (snd (Proxy.generateRoute env request fetch))
       = match request with
         | Return _ => [Proxy.orchestratorUrl env ++ "/generate"]
         | Throw _ => []
         end
  /\ (forall data,
        fst (Proxy.uploadRoute env request fetch) = Proxy.Data data <->
        exists body response,
          request = Return body
          /\ fetch (Proxy.orchestratorUrl env ++ "/upload-template") body = Return response
          /\ 200 <= response.(Proxy.status) <= 299
          /\ response.(Proxy.json) = Return data)
  /\ ((exists data, fst (Proxy.uploadRoute env request fetch) = Proxy.Data data)
      \/ fst (Proxy.uploadRoute env request fetch) = Proxy.Failed 500 "Failed to upload template")
  /\ Proxy.fetches (snd (Proxy.uploadRoute env request fetch))
       = match request with
         | Return _ => [Proxy.orchestratorUrl env ++ "/upload-template"]
         | Throw _ => []
         end
  /\ (truthy env = false -> Proxy.orchestratorUrl env = "http://localhost:8000").
Proof.
  unfold Proxy.generateRoute, Proxy.uploadRoute. cbv zeta.
  repeat split.
  - destruct request as [body|e]; [|discriminate].
    destruct (fetch _ body) as [response|e] eqn:E; [|discriminate].
    destruct (Proxy.ok response) eqn:Hok; cbn [negb]; [|discriminate].
    destruct (Proxy.json response) as [d|e] eqn:Hj; [|discriminate].
    cbn [fst]. intros H. injection H as <-.
    exists body, response. repeat split; try assumption; now apply ok_range.
  - intros [body [response [-> [-> [Hr ->]]]]].
    apply ok_range in Hr. now rewrite Hr.
  - destruct request as [body|e]; [|now right].
    destruct (fetch _ body) as [response|e]; [|now right].
    destruct (Proxy.ok response); cbn [negb]; [|now right].
    destruct (Proxy.json response) as [d|e]; [left; now exists d | now right].
  - destruct request as [body|e]; [|reflexivity].
    destruct (fetch _ body) as [response|e]; [|reflexivity].
    destruct (Proxy.ok response); cbn [negb]; [|reflexivity].
    destruct (Proxy.json response) as [d|e]; reflexivity.
  - destruct request as [body|e]; [|discriminate].
    destruct (fetch _ body) as [response|e] eqn:E; [|discriminate].
    destruct (Proxy.ok response) eqn:Hok; cbn [negb]; [|discriminate].
    destruct (Proxy.json response) as [d|e] eqn:Hj; [|discriminate].
    cbn [fst]. intros H. injection H as <-.
    exists body, response. repeat split; try assumption; now apply ok_range.
  - intros [body [response [-> [-> [Hr ->]]]]].
    apply ok_range in Hr. now rewrite Hr.
  - destruct request as [body|e]; [|now right].
    destruct (fetch _ body) as [response|e]; [|now right].
    destruct (Proxy.ok response); cbn [negb]; [|now right].
    destruct (Proxy.json response) as [d|e]; [left; now exists d | now right].
  - destruct request as [body|e]; [|reflexivity].
    destruct (fetch _ body) as [response|e]; [|reflexivity].
    destruct (Proxy.ok response); cbn [negb]; [|reflexivity].
    destruct (Proxy.json response) as [d|e]; reflexivity.
  - intros H. unfold Proxy.orchestratorUrl. now rewrite H.
Qed.

(** *** Instances *)

(** A field of commas and blanks gives no SKU. *)
Lemma X12_commas_and_blanks :
  parseSkus (U16.ofString " , ,") = [].
Proof.
  apply (proj2 (X12_parseSkus_none (U16.ofString " , ,"))).
  repeat constructor; vm_compute; intuition discriminate.
Defined.

(** A data line is handed over without its prefix. *)
Lemma X13_data_line_parsed :
  readLine (U16.ofString "data: {}") = Parse (U16.ofString "{}").
Proof.
  apply (proj2 (proj1 (proj2 (X13_readLine (U16.ofString "data: {}")))
                  (U16.ofString "{}"))).
  exists (U16.ofString "{}"). repeat split; reflexivity.
Defined.

(** An event for the fourth agent marks the first three. *)
Lemma X14_copywriter_event :
  exists completed,
    completedBefore "copywriter" = Return completed
    /\ ~ In "copywriter" completed
    /\ map Agent.id agents
       = (completed ++ ["copywriter"; "template_layout"; "render"])%list.
Proof.
  destruct (X14_completedBefore "copywriter") as [completed [Hrun [Hnot [Hin _]]]].
  exists completed. split; [exact Hrun|]. split; [exact Hnot|].
  injection Hrun as <-. reflexivity.
Defined.

(** A refusal of the orchestrator reaches the browser as status 500. *)
Lemma X15_refusal_hidden :
  fst (Proxy.generateRoute None (Return "{}")
         (fun _ _ => Return {| Proxy.status := 422;
                               Proxy.statusText := "Unprocessable Entity";
                               Proxy.json := Return "detail" |}))
    = Proxy.Failed 500 "Failed to generate email".
Proof.
  destruct (X15_routes_forward (J := string) (B := string) None (Return "{}")
              (fun _ _ => Return {| Proxy.status := 422;
                                    Proxy.statusText := "Unprocessable Entity";
                                    Proxy.json := Return "detail" |}))
    as [Hdata [[[data Hd]|Hfail] _]].
  - apply Hdata in Hd as [body [response [_ [Hf [Hr _]]]]].
    injection Hf as <-. cbn [Proxy.status] in Hr. lia.
  - exact Hfail.
Defined.
